(** * Olist regional delivery-delay statistics: a model of
      [miniProject/app_region_stats.py]

    The script reads three tables (orders, customers, order items),
    joins them, derives per-order delay flags, aggregates them per
    customer state and shows the result in a dashboard.  This file
    embeds the data pipeline ([load_and_process_data], lines 23-109),
    the GeoJSON fetch ([get_brazil_geojson], lines 13-21) and the
    sidebar filter of [main] (lines 121-126).

    Conventions of the embedding.
    - A pandas column cell that may be missing (NaN, None, NaT) is an
      [option]; [None] is the missing value.
    - A timestamp is the number of nanoseconds since the epoch, as
      pandas stores it; pandas raises on a date outside its range
      instead of wrapping, so date arithmetic is done in [Z].
    - A float64 cell of a ratio column is an IEEE 754 binary64 value,
      computed with the operations of the Standard Library's
      [SpecFloat] ([total_delay_ratio_f64], [revenue_loss_ratio_f64]).
      Beside it stands its reading in exact arithmetic ([fval]: a
      rational, or the infinities and NaN of a division by zero), on
      which counts, sums and bounds are stated; the binary rounding
      error of a sum of prices is outside that reading.
    - An exception is a value of [result]; [try]/[except] is
      [try_except].
    - Library calls whose result the script only passes on
      ([pd.qcut], [requests.get], [response.json], the file readers)
      are inputs of the model. *)

From Stdlib Require Import ZArith QArith Qround Qabs SpecFloat.
From Stdlib Require Import List Sorted String Bool Lia Lqa.
Import ListNotations.

Set Implicit Arguments.

(* ================================================================= *)
(** ** Cells *)

(** A string cell; [None] is a missing value. *)
Definition key := option string.

(** [==] on two string cells as the joins see it: pandas [merge]
    matches a missing key with a missing key. *)
Definition key_eqb (a b : key) : bool :=
  match a, b with
  | Some x, Some y => String.eqb x y
  | None, None => true
  | _, _ => false
  end.

(** [series == 'literal']: a missing cell is equal to no literal. *)
Definition is_lit (a : key) (lit : string) : bool :=
  match a with
  | Some x => String.eqb x lit
  | None => false
  end.

(** A [datetime64[ns]] cell; [None] is NaT. *)
Definition datetime := option Z.

(** A [timedelta64[ns]] cell. *)
Definition timedelta := option Z.

(** Nanoseconds of [pd.Timedelta(days=1)]. *)
Definition day_ns : Z := 86400000000000.

(** [a < b] on datetimes: any comparison with NaT is [False]. *)
Definition dt_lt (a b : datetime) : bool :=
  match a, b with
  | Some x, Some y => (x <? y)%Z
  | _, _ => false
  end.

(** [a > b] on datetimes. *)
Definition dt_gt (a b : datetime) : bool := dt_lt b a.

(** [a - b] on datetimes: NaT if either side is NaT. *)
Definition dt_sub (a b : datetime) : timedelta :=
  match a, b with
  | Some x, Some y => Some (x - y)%Z
  | _, _ => None
  end.

(** [t + pd.Timedelta(days=n)]. *)
Definition dt_add_days (t : datetime) (n : Z) : datetime :=
  option_map (fun x => (x + n * day_ns)%Z) t.

(** [.dt.days]: the days component of a timedelta, which pandas
    normalises by flooring (a delta of minus one hour has [days = -1]). *)
Definition td_days (d : timedelta) : option Z :=
  option_map (fun x => (x / day_ns)%Z) d.

(** [Series.max()] of a datetime column: NaT cells are skipped, the
    result is NaT when no cell is left. *)
Fixpoint dt_max (l : list datetime) : datetime :=
  match l with
  | [] => None
  | None :: l' => dt_max l'
  | Some x :: l' =>
      match dt_max l' with
      | Some m => Some (Z.max x m)
      | None => Some x
      end
  end.

(* ================================================================= *)
(** ** Float cells of the ratio columns *)

Inductive fval : Type :=
| Finite (q : Q)
| PosInf
| NegInf
| NaN.

(** Division of two finite cells.  pandas does not raise on a zero
    divisor: it yields an infinity of the sign of the dividend, or NaN
    for [0 / 0]. *)
Definition fdiv (a b : Q) : fval :=
  if Qeq_bool b 0 then
    match Qcompare a 0 with
    | Gt => PosInf
    | Lt => NegInf
    | Eq => NaN
    end
  else Finite (a / b).

(** [x * 100]. *)
Definition fmul100 (x : fval) : fval :=
  match x with
  | Finite q => Finite (q * 100)
  | other => other
  end.

(** Nearest integer, ties to the even one (numpy [rint]). *)
Definition round_half_even (q : Q) : Z :=
  let f := Qfloor q in
  match Qcompare (q - inject_Z f) (1 # 2) with
  | Lt => f
  | Gt => (f + 1)%Z
  | Eq => if Z.even f then f else (f + 1)%Z
  end.

(** [.round(2)]: scale by 100, round to the nearest integer, scale
    back; infinities and NaN pass through. *)
Definition fround2 (x : fval) : fval :=
  match x with
  | Finite q => Finite (inject_Z (round_half_even (q * 100)) / 100)
  | other => other
  end.

(** [x > y] on float cells; [False] as soon as a NaN is involved. *)
Definition fgt (x y : fval) : bool :=
  match x, y with
  | NaN, _ | _, NaN => false
  | PosInf, PosInf => false
  | PosInf, _ => true
  | _, PosInf => false
  | NegInf, _ => false
  | Finite _, NegInf => true
  | Finite a, Finite b => negb (Qle_bool a b)
  end.

(** An int64 cell used as a float. *)
Definition of_int (n : Z) : Q := inject_Z n.

(* ================================================================= *)
(** ** Float cells as binary64 *)

(** An int64 cell converted to float64: the nearest binary64 value,
    which is the integer itself below 2^53. *)
Definition f64_of_int (n : Z) : spec_float :=
  binary_normalize 53 1024 n 0 false.




(* ================================================================= *)
(** ** Exceptions *)

Inductive exn : Type := Exn (msg : string).

Inductive result (A : Type) : Type :=
| Ok (a : A)
| Raise (e : exn).

Arguments Ok {A} a.
Arguments Raise {A} e.

Definition bind {A B : Type} (m : result A) (k : A -> result B) : result B :=
  match m with
  | Ok a => k a
  | Raise e => Raise e
  end.

Notation "x <- m ;; k" := (bind m (fun x => k))
  (at level 61, m at next level, right associativity).

(** [try: body / except: handler], with a bare [except]. *)
Definition try_except {A : Type} (body : result A) (handler : result A) : result A :=
  match body with
  | Ok a => Ok a
  | Raise _ => handler
  end.

(* ================================================================= *)
(** ** The three input tables *)

Module Orders.
Record row : Type := {
  order_id : key;
  customer_id : key;
  order_status : key;
  order_purchase_timestamp : datetime;
  order_delivered_customer_date : datetime;
  order_estimated_delivery_date : datetime
}.
End Orders.

Module Customers.
Record row : Type := {
  customer_id : key;
  customer_state : key
}.
End Customers.

Module Items.
Record row : Type := {
  order_id : key;
  price : option Q
}.
End Items.

(* ================================================================= *)
(** ** Joins and grouping *)

(** [pd.merge(l, r, on=..., how='left')]: every left row is kept, in
    order; it is paired with each right row of equal key, in the right
    table's order, or once with nothing when no right row matches. *)
Definition merge_left {A B : Type} (kl : A -> key) (kr : B -> key)
    (l : list A) (r : list B) : list (A * option B) :=
  flat_map
    (fun a =>
       match filter (fun b => key_eqb (kl a) (kr b)) r with
       | [] => [(a, None)]
       | ms => map (fun b => (a, Some b)) ms
       end)
    l.

(** The cells of a column that are present. *)
Definition dropna {A : Type} (col : list (option A)) : list A :=
  flat_map (fun c => match c with Some x => [x] | None => [] end) col.

(** Insertion into a list sorted by code point. *)
Fixpoint insert_sorted (k : string) (l : list string) : list string :=
  match l with
  | [] => [k]
  | x :: l' => if String.leb k x then k :: l else x :: insert_sorted k l'
  end.

Definition sort_keys (l : list string) : list string :=
  fold_right insert_sorted [] l.

(** The group keys of [groupby(col)]: the distinct values of the
    column, sorted; rows whose key is missing belong to no group. *)
Definition group_keys (col : list key) : list string :=
  sort_keys (nodup string_dec (dropna col)).

(** ['sum'] of a float column. *)
Definition qsum (l : list Q) : Q := fold_right Qplus 0 l.

(** ['sum'] of a float column with missing cells, which are skipped. *)
Definition qsum_skipna (l : list (option Q)) : Q :=
  fold_right (fun c acc => match c with Some p => p + acc | None => acc end) 0 l.

(** ['sum'] of a boolean column. *)
Definition bsum (l : list bool) : Z :=
  fold_right (fun b acc => (Z.b2z b + acc)%Z) 0%Z l.

(** ['count']: the number of cells that are not missing. *)
Definition count_notna {A : Type} (l : list (option A)) : Z :=
  bsum (map (fun c => match c with Some _ => true | None => false end) l).

(** ['mean'] of an integer column with missing cells: the mean of the
    cells present, NaN when there is none. *)
Definition mean_skipna (l : list (option Z)) : fval :=
  let present := map of_int (dropna l) in
  match present with
  | [] => NaN
  | _ => Finite (qsum present / of_int (Z.of_nat (List.length present)))
  end.

(** Line 44: [order_items.groupby('order_id')['price'].sum().reset_index()]. *)
Definition order_values (order_items : list Items.row) : list (string * Q) :=
  map
    (fun k =>
       (k, qsum_skipna
             (map Items.price
                (filter (fun i => key_eqb (Items.order_id i) (Some k)) order_items))))
    (group_keys (map Items.order_id order_items)).

(* ================================================================= *)
(** ** The merged frame [df] *)

(** [df] after the two merges of lines 41-45. *)
Module Merged.
Record row : Type := {
  order : Orders.row;
  customer_state : key;
  price : Q
}.
End Merged.

(** Lines 41-45.  A left row without a match gets a missing
    [customer_state], and a missing [price] that [fillna] turns
    into 0. *)
Definition merge_tables (orders : list Orders.row) (customers : list Customers.row)
    (order_items : list Items.row) : list Merged.row :=
  let df := merge_left Orders.customer_id Customers.customer_id orders customers in
  let df :=
    merge_left (fun x => Orders.order_id (fst x)) (fun v => Some (fst v))
      df (order_values order_items) in
  map
    (fun x =>
       {| Merged.order := fst (fst x);
          Merged.customer_state :=
            match snd (fst x) with
            | Some c => Customers.customer_state c
            | None => None
            end;
          Merged.price :=
            match snd x with
            | Some v => snd v
            | None => 0
            end |})
    df.

(** The values of [delay_intensity]: ['1-3일'], ['4-7일'], ['7일 이상']. *)
Inductive delay_label : Type := D1_3 | D4_7 | D7_plus.

Definition delay_label_eqb (a b : delay_label) : bool :=
  match a, b with
  | D1_3, D1_3 | D4_7, D4_7 | D7_plus, D7_plus => true
  | _, _ => false
  end.

(** [series == label] on the [delay_intensity] column. *)
Definition is_label (c : option delay_label) (l : delay_label) : bool :=
  match c with
  | Some x => delay_label_eqb x l
  | None => false
  end.

(** Lines 70-74.  On a missing duration (NaN) each of the three
    comparisons is [False], so the last branch is taken. *)
Definition categorize_delay (days : option Z) : option delay_label :=
  match days with
  | Some d =>
      if (d <=? 0)%Z then None
      else if (d <=? 3)%Z then Some D1_3
      else if (d <=? 7)%Z then Some D4_7
      else Some D7_plus
  | None => Some D7_plus
  end.

(** [df] with the columns added by lines 51-76. *)
Module Df.
Record row : Type := {
  order_id : key;
  customer_id : key;
  order_status : key;
  order_purchase_timestamp : datetime;
  order_delivered_customer_date : datetime;
  order_estimated_delivery_date : datetime;
  customer_state : key;
  price : Q;
  is_success : bool;
  is_canceled : bool;
  is_success_delay : bool;
  is_failure_delay : bool;
  is_canceled_delay : bool;
  delivery_time_success : option Z;
  delivery_time_failure : option Z;
  delay_duration : option Z;
  delay_intensity : option delay_label
}.
End Df.

(** Line 48. *)
Definition snapshot_date (df : list Merged.row) : datetime :=
  dt_add_days
    (dt_max (map (fun m => Orders.order_purchase_timestamp (Merged.order m)) df)) 1.

(** Lines 51-76 on one row. *)
Definition add_columns (snapshot_date : datetime) (m : Merged.row) : Df.row :=
  let o := Merged.order m in
  let is_success := is_lit (Orders.order_status o) "delivered" in
  let is_canceled := is_lit (Orders.order_status o) "canceled" in
  let is_success_delay :=
    is_success
    && dt_gt (Orders.order_delivered_customer_date o)
             (Orders.order_estimated_delivery_date o) in
  let is_failure_delay :=
    (negb is_success && negb is_canceled)
    && dt_lt (Orders.order_estimated_delivery_date o) snapshot_date in
  let is_canceled_delay :=
    is_canceled && dt_lt (Orders.order_estimated_delivery_date o) snapshot_date in
  let delay_duration :=
    td_days (dt_sub snapshot_date (Orders.order_estimated_delivery_date o)) in
  {| Df.order_id := Orders.order_id o;
     Df.customer_id := Orders.customer_id o;
     Df.order_status := Orders.order_status o;
     Df.order_purchase_timestamp := Orders.order_purchase_timestamp o;
     Df.order_delivered_customer_date := Orders.order_delivered_customer_date o;
     Df.order_estimated_delivery_date := Orders.order_estimated_delivery_date o;
     Df.customer_state := Merged.customer_state m;
     Df.price := Merged.price m;
     Df.is_success := is_success;
     Df.is_canceled := is_canceled;
     Df.is_success_delay := is_success_delay;
     Df.is_failure_delay := is_failure_delay;
     Df.is_canceled_delay := is_canceled_delay;
     Df.delivery_time_success :=
       td_days (dt_sub (Orders.order_delivered_customer_date o)
                       (Orders.order_purchase_timestamp o));
     Df.delivery_time_failure :=
       td_days (dt_sub (Orders.order_estimated_delivery_date o)
                       (Orders.order_purchase_timestamp o));
     Df.delay_duration := delay_duration;
     Df.delay_intensity :=
       if is_canceled_delay || is_failure_delay
       then categorize_delay delay_duration
       else None |}.

(** Lines 35-76: the frame that is aggregated. *)
Definition process_data (orders : list Orders.row) (customers : list Customers.row)
    (order_items : list Items.row) : list Df.row :=
  let df := merge_tables orders customers order_items in
  map (add_columns (snapshot_date df)) df.


(* ================================================================= *)
(** ** Regional aggregation *)

(** The table returned by [groupby('customer_state').agg(...)],
    lines 79-94. *)
Module Agg.
Record row : Type := {
  customer_state : string;
  total_orders : Z;
  total_order_value : Q;
  success_cnt : Z;
  canceled_cnt : Z;
  canceled_value : Q;
  success_delay_cnt : Z;
  failure_delay_cnt : Z;
  canceled_delay_cnt : Z;
  canceled_delay_value : Q;
  avg_time_success : fval;
  avg_time_failure : fval;
  delay_1_3 : Z;
  delay_4_7 : Z;
  delay_7_plus : Z
}.
End Agg.

(** [region_stats] once lines 97-98 have added the two ratio columns. *)
Module Region.
Record row : Type := {
  agg : Agg.row;
  total_delay_ratio : fval;
  revenue_loss_ratio : fval
}.
End Region.

(** The rows of [df] that [groupby('customer_state')] puts in group [s]. *)
Definition group_rows (s : string) (df : list Df.row) : list Df.row :=
  filter (fun r => key_eqb (Df.customer_state r) (Some s)) df.

(** The aggregates of one group, lines 80-93.  The two lambdas over
    ['price'] select, through the group's index, the prices of the
    group's rows whose flag is set. *)
Definition agg_group (s : string) (g : list Df.row) : Agg.row :=
  {| Agg.customer_state := s;
     Agg.total_orders := count_notna (map Df.order_id g);
     Agg.total_order_value := qsum (map Df.price g);
     Agg.success_cnt := bsum (map Df.is_success g);
     Agg.canceled_cnt := bsum (map Df.is_canceled g);
     Agg.canceled_value := qsum (map Df.price (filter Df.is_canceled g));
     Agg.success_delay_cnt := bsum (map Df.is_success_delay g);
     Agg.failure_delay_cnt := bsum (map Df.is_failure_delay g);
     Agg.canceled_delay_cnt := bsum (map Df.is_canceled_delay g);
     Agg.canceled_delay_value := qsum (map Df.price (filter Df.is_canceled_delay g));
     Agg.avg_time_success := mean_skipna (map Df.delivery_time_success g);
     Agg.avg_time_failure := mean_skipna (map Df.delivery_time_failure g);
     Agg.delay_1_3 := bsum (map (fun r => is_label (Df.delay_intensity r) D1_3) g);
     Agg.delay_4_7 := bsum (map (fun r => is_label (Df.delay_intensity r) D4_7) g);
     Agg.delay_7_plus := bsum (map (fun r => is_label (Df.delay_intensity r) D7_plus) g) |}.

(** Lines 79-94. *)
Definition aggregate (df : list Df.row) : list Agg.row :=
  map (fun s => agg_group s (group_rows s df))
      (group_keys (map Df.customer_state df)).

(** Line 97 on one row. *)
Definition total_delay_ratio_of (a : Agg.row) : fval :=
  fround2
    (fmul100
       (fdiv
          (of_int (Agg.success_delay_cnt a + Agg.failure_delay_cnt a
                   + Agg.canceled_delay_cnt a))
          (of_int (Agg.total_orders a)))).

(** Line 98 on one row. *)
Definition revenue_loss_ratio_of (a : Agg.row) : fval :=
  fround2 (fmul100 (fdiv (Agg.canceled_delay_value a) (Agg.total_order_value a))).



(** Lines 97-98. *)
Definition add_ratios (a : Agg.row) : Region.row :=
  {| Region.agg := a;
     Region.total_delay_ratio := total_delay_ratio_of a;
     Region.revenue_loss_ratio := revenue_loss_ratio_of a |}.

(** Lines 79-98: [region_stats] before the segment columns. *)
Definition region_stats (df : list Df.row) : list Region.row :=
  map add_ratios (aggregate df).

(* ================================================================= *)
(** ** Loading, segments and the returned table *)

(** The labels ['하'], ['중'], ['상'] of lines 102 and 106. *)
Inductive segment : Type := Low | Mid | High.

(** A row of the table that [load_and_process_data] returns. *)
Module Stats.
Record row : Type := {
  region : Region.row;
  delay_segment : option segment;
  order_volume_segment : option segment
}.
End Stats.

Definition state_of (r : Stats.row) : string :=
  Agg.customer_state (Region.agg (Stats.region r)).

(** What each of the six reads of lines 27-33 does on the files at
    hand: it yields a table or raises.  The date columns are taken as
    already converted by lines 36-38. *)
Record files : Type := {
  orders_parquet : result (list Orders.row);
  customers_parquet : result (list Customers.row);
  order_items_parquet : result (list Items.row);
  orders_csv : result (list Orders.row);
  customers_csv : result (list Customers.row);
  order_items_csv : result (list Items.row)
}.

Definition tables : Type :=
  (list Orders.row * list Customers.row * list Items.row)%type.

(** The [try] block, lines 27-29. *)
Definition read_parquet (fs : files) : result tables :=
  orders <- orders_parquet fs ;;
  customers <- customers_parquet fs ;;
  order_items <- order_items_parquet fs ;;
  Ok (orders, customers, order_items).

(** The [except] block, lines 31-33. *)
Definition read_csv (fs : files) : result tables :=
  orders <- orders_csv fs ;;
  customers <- customers_csv fs ;;
  order_items <- order_items_csv fs ;;
  Ok (orders, customers, order_items).

(** Lines 26-33. *)
Definition load_tables (fs : files) : result tables :=
  try_except (read_parquet fs) (read_csv fs).

(** Attaching the two segment columns, lines 103 and 107. *)
Definition add_segments (rs : list Region.row)
    (delay volume : list (option segment)) : list Stats.row :=
  map
    (fun x =>
       {| Stats.region := fst (fst x);
          Stats.delay_segment := snd (fst x);
          Stats.order_volume_segment := snd x |})
    (combine (combine rs delay) volume).

Section Pipeline.

(** [pd.qcut(column, q=3, labels=...)]: the tercile of each cell, or an
    exception (for instance when two bin edges coincide). *)
Variable qcut : list fval -> result (list (option segment)).

(** Lines 35-109 on the three tables once they are loaded. *)
Definition process_tables (t : tables) : result (list Stats.row) :=
  let rs := region_stats (process_data (fst (fst t)) (snd (fst t)) (snd t)) in
  delay <- qcut (map Region.total_delay_ratio rs) ;;
  volume <- qcut (map (fun r => Finite (of_int (Agg.total_orders (Region.agg r)))) rs) ;;
  Ok (add_segments rs delay volume).

(** Lines 23-109, without the memoisation. *)
Definition load_and_process_data (fs : files) : result (list Stats.row) :=
  t <- load_tables fs ;;
  let rs := region_stats (process_data (fst (fst t)) (snd (fst t)) (snd t)) in
  delay <- qcut (map Region.total_delay_ratio rs) ;;
  volume <- qcut (map (fun r => Finite (of_int (Agg.total_orders (Region.agg r)))) rs) ;;
  Ok (add_segments rs delay volume).

End Pipeline.

(** Lines 123-126 of [main]. *)
Definition filtered_data (data : list Stats.row) (selected_states : list string)
    : list Stats.row :=
  match selected_states with
  | [] => data
  | _ :: _ =>
      filter (fun r => existsb (String.eqb (state_of r)) selected_states) data
  end.

(** [Series.unique()]: the distinct values, in order of first
    appearance. *)
Fixpoint unique (l : list string) : list string :=
  match l with
  | [] => []
  | x :: l' => x :: filter (fun y => negb (String.eqb x y)) (unique l')
  end.

(** Line 121: the options of the sidebar multiselect,
    [data['customer_state'].unique()]. *)
Definition state_options (data : list Stats.row) : list string :=
  unique (map state_of data).

(** ['sum'] of an integer column. *)
Definition zsum (l : list Z) : Z := fold_right Z.add 0%Z l.

(** Line 134: [filtered_data['total_orders'].sum()]. *)
Definition kpi_total_orders (filtered : list Stats.row) : Z :=
  zsum (map (fun r => Agg.total_orders (Region.agg (Stats.region r))) filtered).

(** Lines 137 and 184: [filtered_data['success_delay_cnt'].sum()]. *)
Definition kpi_success_delay (filtered : list Stats.row) : Z :=
  zsum (map (fun r => Agg.success_delay_cnt (Region.agg (Stats.region r))) filtered).

(** Lines 138 and 185: [filtered_data['failure_delay_cnt'].sum()]. *)
Definition kpi_failure_delay (filtered : list Stats.row) : Z :=
  zsum (map (fun r => Agg.failure_delay_cnt (Region.agg (Stats.region r))) filtered).

(** Line 135: the overall delay rate of the KPI card, before it is
    formatted.  The three sums are numpy integers: their quotient is a
    float64 division, which yields an infinity or NaN on a zero divisor
    instead of raising, and the product by 100 a float64
    multiplication. *)
Definition avg_total_delay (filtered : list Stats.row) : spec_float :=
  SFmul 53 1024
    (SFdiv 53 1024
       (f64_of_int (kpi_success_delay filtered + kpi_failure_delay filtered))
       (f64_of_int (kpi_total_orders filtered)))
    (f64_of_int 100).

(** A row of [delay_intensity_df], lines 299-309: the state, the
    bucket (['Delay Category']) and its count (['Count']). *)
Module Melted.
Record row : Type := {
  customer_state : string;
  delay_category : delay_label;
  count : Z
}.
End Melted.

(** The bucket column of a region that a category names. *)
Definition bucket_count (c : delay_label) (r : Stats.row) : Z :=
  match c with
  | D1_3 => Agg.delay_1_3 (Region.agg (Stats.region r))
  | D4_7 => Agg.delay_4_7 (Region.agg (Stats.region r))
  | D7_plus => Agg.delay_7_plus (Region.agg (Stats.region r))
  end.

(** Lines 299-309: [melt] stacks the three bucket columns, one block
    of rows per column, each block in the order of the table. *)
Definition delay_intensity_df (filtered : list Stats.row) : list Melted.row :=
  flat_map
    (fun c =>
       map
         (fun r =>
            {| Melted.customer_state := state_of r;
               Melted.delay_category := c;
               Melted.count := bucket_count c r |})
         filtered)
    [D1_3; D4_7; D7_plus].

(* ================================================================= *)
(** ** The GeoJSON fetch *)

Section GeoJson.

Variables response json : Type.

(** [requests.get(url)] and [response.json()] on the network at hand. *)
Variable requests_get : result response.
Variable response_json : response -> result json.

(** Lines 13-21; [None] is Python's [None]. *)
Definition get_brazil_geojson : result (option json) :=
  try_except
    (response <- requests_get ;;
     j <- response_json response ;;
     Ok (Some j))
    (Ok None).

End GeoJson.


(* ================================================================= *)
(** ** Reference notions the statements are phrased with *)

(** The merged order data of line 41: each order with the state of its
    customer (once per matching customer row). *)
Definition order_records (orders : list Orders.row) (customers : list Customers.row)
    : list (Orders.row * key) :=
  map
    (fun x =>
       (fst x,
        match snd x with
        | Some c => Customers.customer_state c
        | None => None
        end))
    (merge_left Orders.customer_id Customers.customer_id orders customers).

(** [m] is the maximum [order_purchase_timestamp] of the dataset. *)
Definition is_latest_purchase (orders : list Orders.row) (m : Z) : Prop :=
  (exists o, In o orders /\ Orders.order_purchase_timestamp o = Some m) /\
  (forall o x, In o orders -> Orders.order_purchase_timestamp o = Some x -> (x <= m)%Z).

(** The item belongs to the order of identifier [oid]. *)
Definition same_order (oid : key) (i : Items.row) : bool :=
  match oid, Items.order_id i with
  | Some a, Some b => String.eqb a b
  | _, _ => false
  end.

(** The item-price total of an order: the sum of the prices of its
    items, 0 when it has none. *)
Definition order_total (order_items : list Items.row) (oid : key) : Q :=
  qsum_skipna (map Items.price (filter (same_order oid) order_items)).

(** The number of elements that satisfy [p]. *)
Definition count_if {A : Type} (p : A -> bool) (l : list A) : Z :=
  Z.of_nat (List.length (filter p l)).

(** The record is of state [s]. *)
Definition in_state (s : string) (rec : Orders.row * key) : bool :=
  key_eqb (snd rec) (Some s).

(** The record's [order_status] is [lit]. *)
Definition has_status (lit : string) (rec : Orders.row * key) : bool :=
  is_lit (Orders.order_status (fst rec)) lit.

(** The record's [order_id] cell is present. *)
Definition has_order_id (rec : Orders.row * key) : bool :=
  match Orders.order_id (fst rec) with
  | Some _ => true
  | None => false
  end.

(** The number of the three delay flags that are set on a row. *)
Definition flags_set (r : Df.row) : Z :=
  (Z.b2z (Df.is_success_delay r) + Z.b2z (Df.is_failure_delay r)
   + Z.b2z (Df.is_canceled_delay r))%Z.

(** The row of the frame that a merged order record becomes, given the
    snapshot date: its price is the item-price total of its order. *)
Definition row_of_record (snap : datetime) (order_items : list Items.row)
    (rec : Orders.row * key) : Df.row :=
  add_columns snap
    {| Merged.order := fst rec;
       Merged.customer_state := snd rec;
       Merged.price := order_total order_items (Orders.order_id (fst rec)) |}.

(** The row carries the columns of the order [o]. *)
Definition row_of_order (o : Orders.row) (r : Df.row) : Prop :=
  Df.order_id r = Orders.order_id o
  /\ Df.order_status r = Orders.order_status o
  /\ Df.order_purchase_timestamp r = Orders.order_purchase_timestamp o
  /\ Df.order_delivered_customer_date r = Orders.order_delivered_customer_date o
  /\ Df.order_estimated_delivery_date r = Orders.order_estimated_delivery_date o.

(** The estimated delivery date of the row lies strictly before the
    snapshot date: the latest purchase of the dataset plus one day. *)
Definition estimate_before_snapshot (orders : list Orders.row) (r : Df.row) : Prop :=
  exists e m,
    Df.order_estimated_delivery_date r = Some e
    /\ is_latest_purchase orders m
    /\ (e < m + day_ns)%Z.

(** The three delay flags of a row, as the derivation rules give them. *)
Definition flags_as_specified (orders : list Orders.row) (r : Df.row) : Prop :=
  (Df.is_success_delay r = true <->
     Df.order_status r = Some "delivered"%string
     /\ exists d e,
          Df.order_delivered_customer_date r = Some d
          /\ Df.order_estimated_delivery_date r = Some e
          /\ (e < d)%Z)
  /\ (Df.is_failure_delay r = true <->
        Df.order_status r <> Some "delivered"%string
        /\ Df.order_status r <> Some "canceled"%string
        /\ estimate_before_snapshot orders r)
  /\ (Df.is_canceled_delay r = true <->
        Df.order_status r = Some "canceled"%string
        /\ estimate_before_snapshot orders r).

(** The row has a delay-intensity category. *)
Definition has_category (r : Df.row) : bool :=
  match Df.delay_intensity r with
  | Some _ => true
  | None => false
  end.

(** The row is flagged as a failure delay or a canceled delay. *)
Definition undelivered_delay (r : Df.row) : bool :=
  Df.is_failure_delay r || Df.is_canceled_delay r.

(** The whole days, truncated, from the estimated delivery date [e] to
    the snapshot date that follows the latest purchase [m]. *)
Definition days_overdue (m e : Z) : Z := Z.quot (m + day_ns - e) day_ns.

(** The record has a customer state. *)
Definition has_state (rec : Orders.row * key) : bool :=
  match snd rec with
  | Some _ => true
  | None => false
  end.

(** The customer rows that line 41 pairs with the order [o]. *)
Definition matching_customers (customers : list Customers.row) (o : Orders.row)
    : list Customers.row :=
  filter (fun c => key_eqb (Orders.customer_id o) (Customers.customer_id c)) customers.



(** The frame row belongs to one of the shown regions. *)
Definition in_shown (shown : list Stats.row) (r : Df.row) : bool :=
  existsb (fun row => key_eqb (Df.customer_state r) (Some (state_of row))) shown.

(* ================================================================= *)
(** ** A small dataset *)

Module Sample.

Definition day (n : Z) : datetime := Some (n * day_ns)%Z.

(** Delivered one day after the estimate. *)
Definition o1 : Orders.row :=
  {| Orders.order_id := Some "o1"%string;
     Orders.customer_id := Some "c1"%string;
     Orders.order_status := Some "delivered"%string;
     Orders.order_purchase_timestamp := day 1;
     Orders.order_delivered_customer_date := day 9;
     Orders.order_estimated_delivery_date := day 8 |}.

(** As [o1], but the identifier cell is empty. *)
Definition o2 : Orders.row :=
  {| Orders.order_id := None;
     Orders.customer_id := Some "c2"%string;
     Orders.order_status := Some "delivered"%string;
     Orders.order_purchase_timestamp := day 2;
     Orders.order_delivered_customer_date := day 9;
     Orders.order_estimated_delivery_date := day 8 |}.

(** Canceled, estimate six days before the snapshot. *)
Definition o3 : Orders.row :=
  {| Orders.order_id := Some "o3"%string;
     Orders.customer_id := Some "c1"%string;
     Orders.order_status := Some "canceled"%string;
     Orders.order_purchase_timestamp := day 20;
     Orders.order_delivered_customer_date := None;
     Orders.order_estimated_delivery_date := day 15 |}.

(** Still on its way, estimate one day before the snapshot. *)
Definition o4 : Orders.row :=
  {| Orders.order_id := Some "o4"%string;
     Orders.customer_id := Some "c3"%string;
     Orders.order_status := Some "shipped"%string;
     Orders.order_purchase_timestamp := day 3;
     Orders.order_delivered_customer_date := None;
     Orders.order_estimated_delivery_date := day 20 |}.

(** Still on its way, estimate half a day before the snapshot. *)
Definition o5 : Orders.row :=
  {| Orders.order_id := Some "o5"%string;
     Orders.customer_id := Some "c3"%string;
     Orders.order_status := Some "shipped"%string;
     Orders.order_purchase_timestamp := day 4;
     Orders.order_delivered_customer_date := None;
     Orders.order_estimated_delivery_date := Some (20 * day_ns + 43200000000000)%Z |}.

Definition orders : list Orders.row := [o1; o2; o3; o4; o5].

Definition customers : list Customers.row :=
  [ {| Customers.customer_id := Some "c1"%string; Customers.customer_state := Some "SP"%string |};
    {| Customers.customer_id := Some "c2"%string; Customers.customer_state := Some "RJ"%string |};
    {| Customers.customer_id := Some "c3"%string; Customers.customer_state := Some "AL"%string |} ].

Definition order_items : list Items.row :=
  [ {| Items.order_id := Some "o1"%string; Items.price := Some (10 # 1) |};
    {| Items.order_id := Some "o3"%string; Items.price := Some (5 # 2) |};
    {| Items.order_id := Some "o1"%string; Items.price := None |};
    {| Items.order_id := Some "o3"%string; Items.price := Some (1 # 2) |} ].

Definition df : list Df.row := process_data orders customers order_items.

(** The customers parquet file cannot be read. *)
Definition fs_csv_only : files :=
  {| orders_parquet := Ok orders;
     customers_parquet := Raise (Exn "FileNotFoundError");
     order_items_parquet := Ok order_items;
     orders_csv := Ok orders;
     customers_csv := Ok customers;
     order_items_csv := Ok order_items |}.

(** No data file exists. *)
Definition fs_none : files :=
  {| orders_parquet := Raise (Exn "FileNotFoundError");
     customers_parquet := Raise (Exn "FileNotFoundError");
     order_items_parquet := Raise (Exn "FileNotFoundError");
     orders_csv := Raise (Exn "FileNotFoundError");
     customers_csv := Raise (Exn "FileNotFoundError");
     order_items_csv := Raise (Exn "FileNotFoundError") |}.

(** The order [o] with an empty purchase timestamp cell. *)
Definition undated (o : Orders.row) : Orders.row :=
  {| Orders.order_id := Orders.order_id o;
     Orders.customer_id := Orders.customer_id o;
     Orders.order_status := Orders.order_status o;
     Orders.order_purchase_timestamp := None;
     Orders.order_delivered_customer_date := Orders.order_delivered_customer_date o;
     Orders.order_estimated_delivery_date := Orders.order_estimated_delivery_date o |}.

(** Delivered a day before the estimate. *)
Definition o6 : Orders.row :=
  {| Orders.order_id := Some "o6"%string;
     Orders.customer_id := Some "c1"%string;
     Orders.order_status := Some "delivered"%string;
     Orders.order_purchase_timestamp := day 1;
     Orders.order_delivered_customer_date := day 7;
     Orders.order_estimated_delivery_date := day 8 |}.



(** The customers parquet file cannot be read, and the orders parquet
    file holds one order only. *)
Definition fs_stale_parquet : files :=
  {| orders_parquet := Ok [o1];
     customers_parquet := Raise (Exn "ArrowInvalid");
     order_items_parquet := Ok [];
     orders_csv := Ok orders;
     customers_csv := Ok customers;
     order_items_csv := Ok order_items |}.

(** No parquet file can be read, and the customers CSV file is
    missing. *)
Definition fs_csv_missing : files :=
  {| orders_parquet := Raise (Exn "ArrowInvalid");
     customers_parquet := Raise (Exn "ArrowInvalid");
     order_items_parquet := Raise (Exn "ArrowInvalid");
     orders_csv := Ok orders;
     customers_csv := Raise (Exn "FileNotFoundError");
     order_items_csv := Ok order_items |}.

(** The sample without the order that has no identifier, and with an
    order of SP delivered on time. *)
Definition df_clean : list Df.row :=
  process_data [o1; o3; o4; o5; o6] customers order_items.

(** Its table.  AL has two orders, both late, and SP three, two of
    them late: of the two regions AL is in the upper tercile of the
    delay ratio and the lower one of the order volume. *)
Definition table_clean : list Stats.row :=
  add_segments (region_stats df_clean) [Some High; Some Low] [Some Low; Some High].

(** The table of the sample, one tercile per region. *)
Definition table : list Stats.row :=
  add_segments (region_stats df)
    [Some Mid; Some High; Some Low] [Some Mid; Some Low; Some High].

End Sample.


(* ================================================================= *)
(** * Properties *)

(** ** Lists, keys and dates *)

Lemma key_eqb_eq (a b : key) : key_eqb a b = true <-> a = b.
Proof.
  destruct a as [x|], b as [y|]; simpl; try (split; congruence).
  rewrite String.eqb_eq. split; congruence.
Qed.

Lemma is_lit_true (a : key) (lit : string) : is_lit a lit = true <-> a = Some lit.
Proof.
  destruct a as [x|]; simpl; [rewrite String.eqb_eq|]; split; congruence.
Qed.

Lemma is_lit_false (a : key) (lit : string) : is_lit a lit = false <-> a <> Some lit.
Proof.
  rewrite <- is_lit_true. destruct (is_lit a lit); split; congruence.
Qed.

Lemma dt_lt_true (a b : datetime) :
  dt_lt a b = true <-> exists x y, a = Some x /\ b = Some y /\ (x < y)%Z.
Proof.
  destruct a as [x|], b as [y|]; simpl.
  - rewrite Z.ltb_lt. split.
    + intros H. exists x, y. auto.
    + intros (x' & y' & Hx & Hy & H). congruence.
  - split; [discriminate | intros (? & ? & _ & ? & _); discriminate].
  - split; [discriminate | intros (? & ? & ? & _); discriminate].
  - split; [discriminate | intros (? & ? & ? & _); discriminate].
Qed.

Lemma dt_max_none (l : list datetime) :
  dt_max l = None <-> forall x, ~ In (Some x) l.
Proof.
  induction l as [|[y|] l IH]; simpl.
  - split; auto.
  - split.
    + destruct (dt_max l); discriminate.
    + intros H. exfalso. apply (H y). now left.
  - rewrite IH. split.
    + intros H x [Hx|Hx]; [discriminate | now apply (H x)].
    + intros H x Hx. apply (H x). now right.
Qed.

Lemma dt_max_some (l : list datetime) (m : Z) :
  dt_max l = Some m ->
  In (Some m) l /\ forall x, In (Some x) l -> (x <= m)%Z.
Proof.
  revert m. induction l as [|[y|] l IH]; simpl; intros m H.
  - discriminate.
  - destruct (dt_max l) as [m'|] eqn:E.
    + injection H as <-. destruct (IH m' eq_refl) as [Hin Hle]. split.
      * destruct (Z.max_spec y m') as [[_ ->]|[_ ->]]; auto.
      * intros x [Hx|Hx]; [injection Hx as ->; lia|].
        specialize (Hle x Hx). lia.
    + injection H as <-. split; [now left|].
      intros x [Hx|Hx]; [injection Hx as ->; lia|].
      rewrite dt_max_none in E. now destruct (E x).
  - destruct (IH m H) as [Hin Hle]. split; [now right|].
    intros x [Hx|Hx]; [discriminate | auto].
Qed.

Lemma flat_map_single {A B : Type} (f : A -> list B) (g : A -> B) (l : list A) :
  (forall a, In a l -> f a = [g a]) -> flat_map f l = map g l.
Proof.
  induction l as [|a l IH]; simpl; intros H; [reflexivity|].
  rewrite (H a) by now left. simpl. f_equal. apply IH. intros; apply H; now right.
Qed.

Lemma filter_map_comm {A B : Type} (p : B -> bool) (f : A -> B) (l : list A) :
  filter p (map f l) = map f (filter (fun a => p (f a)) l).
Proof.
  induction l as [|a l IH]; simpl; [reflexivity|].
  rewrite IH. now destruct (p (f a)).
Qed.

Lemma filter_none {A : Type} (p : A -> bool) (l : list A) :
  (forall a, In a l -> p a = false) -> filter p l = [].
Proof.
  induction l as [|a l IH]; simpl; intros H; [reflexivity|].
  rewrite (H a) by now left. apply IH. intros; apply H; now right.
Qed.

Lemma filter_filter {A : Type} (p q : A -> bool) (l : list A) :
  filter p (filter q l) = filter (fun a => q a && p a) l.
Proof.
  induction l as [|a l IH]; simpl; [reflexivity|].
  destruct (q a); simpl; [destruct (p a)|]; now rewrite IH.
Qed.

Lemma filter_eqb_nodup (s : string) (l : list string) :
  NoDup l -> filter (String.eqb s) l = if in_dec string_dec s l then [s] else [].
Proof.
  induction 1 as [|x l Hx Hnd IH]; simpl; [reflexivity|].
  destruct (String.eqb_spec s x) as [Heq|Hne].
  - subst x. destruct (string_dec s s) as [_|]; [|congruence].
    f_equal. apply filter_none. intros a Ha.
    apply String.eqb_neq. intros Heq. subst a. contradiction.
  - rewrite IH. destruct (string_dec x s) as [Heq|Hxs]; [congruence|].
    now destruct (in_dec string_dec s l).
Qed.

Lemma in_dropna {A : Type} (col : list (option A)) (x : A) :
  In x (dropna col) <-> In (Some x) col.
Proof.
  unfold dropna. rewrite in_flat_map. split.
  - intros ([y|] & Hin & Hx); simpl in Hx; [|contradiction].
    destruct Hx as [->|[]]. assumption.
  - intros H. exists (Some x). split; [assumption | now left].
Qed.

Lemma in_insert_sorted (k x : string) (l : list string) :
  In x (insert_sorted k l) <-> x = k \/ In x l.
Proof.
  induction l as [|y l IH]; simpl.
  - intuition congruence.
  - destruct (String.leb k y); simpl; [|rewrite IH]; intuition congruence.
Qed.

Lemma in_sort_keys (x : string) (l : list string) : In x (sort_keys l) <-> In x l.
Proof.
  induction l as [|y l IH]; simpl; [tauto|].
  rewrite in_insert_sorted, IH. intuition congruence.
Qed.

Lemma nodup_insert_sorted (k : string) (l : list string) :
  ~ In k l -> NoDup l -> NoDup (insert_sorted k l).
Proof.
  induction l as [|y l IH]; simpl; intros Hk Hnd.
  - constructor; [tauto | constructor].
  - destruct (String.leb k y).
    + constructor; [simpl; tauto | assumption].
    + inversion Hnd as [|? ? Hy Hl]; subst. constructor.
      * rewrite in_insert_sorted. intuition congruence.
      * apply IH; tauto.
Qed.

Lemma nodup_sort_keys (l : list string) : NoDup l -> NoDup (sort_keys l).
Proof.
  induction 1 as [|x l Hx Hnd IH]; simpl; [constructor|].
  apply nodup_insert_sorted; [now rewrite in_sort_keys | assumption].
Qed.

Lemma in_group_keys (col : list key) (s : string) :
  In s (group_keys col) <-> In (Some s) col.
Proof.
  unfold group_keys. now rewrite in_sort_keys, nodup_In, in_dropna.
Qed.

Lemma nodup_group_keys (col : list key) : NoDup (group_keys col).
Proof.
  unfold group_keys. apply nodup_sort_keys, NoDup_nodup.
Qed.

(** ** The two merges *)

Lemma in_merge_left_fst {A B : Type} (kl : A -> key) (kr : B -> key)
    (l : list A) (r : list B) (a : A) :
  In a l <-> exists ob, In (a, ob) (merge_left kl kr l r).
Proof.
  unfold merge_left. split.
  - intros Ha. destruct (filter (fun b => key_eqb (kl a) (kr b)) r) as [|b ms] eqn:E.
    + exists None. apply in_flat_map. exists a. split; [assumption|].
      rewrite E. now left.
    + exists (Some b). apply in_flat_map. exists a. split; [assumption|].
      rewrite E. now left.
  - intros (ob & H). apply in_flat_map in H. destruct H as (a' & Ha' & H).
    destruct (filter (fun b => key_eqb (kl a') (kr b)) r) as [|b ms].
    + destruct H as [H|[]]. congruence.
    + apply in_map_iff in H. destruct H as (b' & H & _). congruence.
Qed.

Lemma same_order_ext (s : string) (i : Items.row) :
  key_eqb (Items.order_id i) (Some s) = same_order (Some s) i.
Proof.
  unfold same_order. destruct (Items.order_id i) as [x|]; simpl; [|reflexivity].
  apply String.eqb_sym.
Qed.

Lemma order_total_none (order_items : list Items.row) :
  order_total order_items None = 0.
Proof.
  unfold order_total. now rewrite filter_none.
Qed.

Lemma order_total_no_item (order_items : list Items.row) (s : string) :
  ~ In (Some s) (map Items.order_id order_items) ->
  order_total order_items (Some s) = 0.
Proof.
  intros H. unfold order_total. rewrite filter_none; [reflexivity|].
  intros i Hi. unfold same_order.
  destruct (Items.order_id i) as [x|] eqn:E; [|reflexivity].
  apply String.eqb_neq. intros Heq. subst x. apply H.
  rewrite <- E. now apply in_map.
Qed.

(** The grouped item table has at most one row per order identifier,
    and that row carries the order's item-price total. *)
Lemma order_values_lookup (order_items : list Items.row) (k : key) :
  filter (fun v => key_eqb k (Some (fst v))) (order_values order_items) = []
  /\ order_total order_items k = 0
  \/ exists s, k = Some s /\
       filter (fun v => key_eqb k (Some (fst v))) (order_values order_items)
       = [(s, order_total order_items k)].
Proof.
  unfold order_values. rewrite filter_map_comm. simpl.
  destruct k as [s|].
  - simpl. rewrite filter_eqb_nodup by apply nodup_group_keys.
    destruct (in_dec string_dec s (group_keys (map Items.order_id order_items)))
      as [Hin|Hnin].
    + right. exists s. split; [reflexivity|]. simpl. unfold order_total.
      now rewrite (filter_ext _ _ (same_order_ext s)).
    + left. split; [reflexivity|]. apply order_total_no_item.
      now rewrite <- in_group_keys.
  - left. split; [|apply order_total_none].
    simpl. now rewrite filter_none.
Qed.

(** Lines 41-45 keep the records of the first merge, one for one, and
    give each the item-price total of its order. *)
Lemma merge_tables_spec (orders : list Orders.row) (customers : list Customers.row)
    (order_items : list Items.row) :
  merge_tables orders customers order_items
  = map
      (fun rec =>
         {| Merged.order := fst rec;
            Merged.customer_state := snd rec;
            Merged.price := order_total order_items (Orders.order_id (fst rec)) |})
      (order_records orders customers).
Proof.
  unfold merge_tables, order_records.
  set (df1 := merge_left Orders.customer_id Customers.customer_id orders customers).
  unfold merge_left at 1.
  rewrite flat_map_single with
    (g := fun a =>
            (a, match filter (fun v => key_eqb (Orders.order_id (fst a)) (Some (fst v)))
                        (order_values order_items) with
                | [] => None
                | v :: _ => Some v
                end)).
  - rewrite !map_map. apply map_ext. intros a. simpl. f_equal.
    destruct (order_values_lookup order_items (Orders.order_id (fst a)))
      as [[-> ->]|(s & _ & ->)]; reflexivity.
  - intros a _.
    destruct (order_values_lookup order_items (Orders.order_id (fst a)))
      as [[-> _]|(s & _ & ->)]; reflexivity.
Qed.

Lemma in_order_records (orders : list Orders.row) (customers : list Customers.row)
    (o : Orders.row) :
  In o orders <-> exists st, In (o, st) (order_records orders customers).
Proof.
  unfold order_records.
  rewrite (in_merge_left_fst Orders.customer_id Customers.customer_id orders customers).
  split.
  - intros (ob & H). eexists. apply in_map_iff. exists (o, ob). split; [reflexivity|exact H].
  - intros (st & H). apply in_map_iff in H. destruct H as ([o' ob] & Heq & H).
    simpl in Heq. exists ob. congruence.
Qed.

(** The purchase timestamps of the merged frame are those of the
    orders table. *)
Lemma in_merged_purchase (orders : list Orders.row) (customers : list Customers.row)
    (order_items : list Items.row) (t : datetime) :
  In t (map (fun m => Orders.order_purchase_timestamp (Merged.order m))
          (merge_tables orders customers order_items))
  <-> exists o, In o orders /\ Orders.order_purchase_timestamp o = t.
Proof.
  rewrite merge_tables_spec, map_map. simpl. rewrite in_map_iff. split.
  - intros ([o st] & Ht & H). exists o. split; [|exact Ht].
    apply (in_order_records orders customers). now exists st.
  - intros (o & Ho & Ht). apply (in_order_records orders customers) in Ho.
    destruct Ho as (st & H). now exists (o, st).
Qed.

(** Line 48 computes the latest purchase plus one day. *)
Lemma snapshot_date_some (orders : list Orders.row) (customers : list Customers.row)
    (order_items : list Items.row) (snap : Z) :
  snapshot_date (merge_tables orders customers order_items) = Some snap
  <-> exists m, is_latest_purchase orders m /\ snap = (m + day_ns)%Z.
Proof.
  unfold snapshot_date, dt_add_days, is_latest_purchase.
  set (col := map _ _).
  assert (Hcol : forall t, In t col <-> exists o, In o orders /\ Orders.order_purchase_timestamp o = t)
    by apply in_merged_purchase.
  split.
  - destruct (dt_max col) as [m|] eqn:E; simpl; [|discriminate].
    intros H. injection H as <-. exists m.
    destruct (dt_max_some col E) as [Hin Hle]. split; [|reflexivity]. split.
    + now apply Hcol.
    + intros o x Ho Hx. apply Hle, Hcol. now exists o.
  - intros (m & [(o & Ho & Hm) Hle] & ->).
    destruct (dt_max col) as [m'|] eqn:E; simpl.
    + destruct (dt_max_some col E) as [Hin Hle'].
      apply Hcol in Hin. destruct Hin as (o' & Ho' & Hm').
      assert (m' <= m)%Z by (eapply Hle; eassumption).
      assert (m <= m')%Z by (apply Hle', Hcol; now exists o).
      replace m' with m by lia. reflexivity.
    + rewrite dt_max_none in E. exfalso. apply (E m), Hcol. now exists o.
Qed.

(** ** The derived columns *)

Lemma process_data_spec (orders : list Orders.row) (customers : list Customers.row)
    (order_items : list Items.row) :
  process_data orders customers order_items
  = map
      (row_of_record (snapshot_date (merge_tables orders customers order_items))
         order_items)
      (order_records orders customers).
Proof.
  unfold process_data. rewrite merge_tables_spec at 2. now rewrite map_map.
Qed.

Lemma estimate_before_snapshot_iff (orders : list Orders.row)
    (customers : list Customers.row) (order_items : list Items.row)
    (rec : Orders.row * key) :
  let snap := snapshot_date (merge_tables orders customers order_items) in
  dt_lt (Orders.order_estimated_delivery_date (fst rec)) snap = true
  <-> estimate_before_snapshot orders (row_of_record snap order_items rec).
Proof.
  intros snap. unfold estimate_before_snapshot. simpl.
  rewrite dt_lt_true. split.
  - intros (e & s & He & Hs & Hlt).
    apply snapshot_date_some in Hs. destruct Hs as (m & Hm & ->).
    now exists e, m.
  - intros (e & m & He & Hm & Hlt). exists e, (m + day_ns)%Z.
    repeat split; try assumption.
    apply snapshot_date_some. now exists m.
Qed.

Lemma flags_of_record (orders : list Orders.row) (customers : list Customers.row)
    (order_items : list Items.row) (rec : Orders.row * key) :
  flags_as_specified orders
    (row_of_record (snapshot_date (merge_tables orders customers order_items))
       order_items rec).
Proof.
  pose proof (estimate_before_snapshot_iff orders customers order_items rec) as Hsnap.
  simpl in Hsnap. unfold flags_as_specified.
  rewrite <- Hsnap. simpl.
  rewrite !andb_true_iff, !negb_true_iff, !is_lit_true, !is_lit_false.
  unfold dt_gt. rewrite dt_lt_true.
  repeat split; try tauto.
  - destruct H as [_ (e & d & He & Hd & Hlt)]. now exists d, e.
  - destruct H as [_ (d & e & Hd & He & Hlt)]. now exists e, d.
Qed.

(** C1.  Every order of the orders table is processed into at least one
    row of the frame.  Every row of the frame comes from an order, and
    its flags are: [is_success_delay] iff the status is 'delivered' and
    the delivery date is strictly later than the estimated date;
    [is_failure_delay] iff the status is neither 'delivered' nor
    'canceled' and the estimated date is strictly before the snapshot
    date (the maximum purchase timestamp of the dataset plus one day);
    [is_canceled_delay] iff the status is 'canceled' and the estimated
    date is strictly before that snapshot date. *)
Theorem delay_flags_derivation (orders : list Orders.row)
    (customers : list Customers.row) (order_items : list Items.row) :
  (forall o, In o orders ->
     exists r, In r (process_data orders customers order_items) /\ row_of_order o r)
  /\ (forall r, In r (process_data orders customers order_items) ->
        (exists o, In o orders /\ row_of_order o r)
        /\ flags_as_specified orders r).
Proof.
  rewrite process_data_spec. split.
  - intros o Ho. apply (in_order_records orders customers) in Ho.
    destruct Ho as (st & H).
    eexists. split; [apply in_map; exact H|].
    repeat split.
  - intros r Hr. apply in_map_iff in Hr. destruct Hr as ([o st] & <- & H). split.
    + exists o. split; [|repeat split].
      apply (in_order_records orders customers). now exists st.
    + apply flags_of_record.
Qed.

(** The canceled order of the sample is a canceled delay and neither
    of the other two. *)
Lemma delay_flags_derivation_witness :
  exists r,
    nth_error Sample.df 2 = Some r
    /\ flags_as_specified Sample.orders r
    /\ Df.is_canceled_delay r = true
    /\ Df.is_failure_delay r = false.
Proof.
  eexists. split; [reflexivity|]. split; [|split; reflexivity].
  apply (delay_flags_derivation Sample.orders Sample.customers Sample.order_items).
  apply nth_error_In with 2%nat. reflexivity.
Defined.


(** ** Aggregation *)

Lemma bsum_map_count {A : Type} (p : A -> bool) (l : list A) :
  bsum (map p l) = count_if p l.
Proof.
  unfold count_if. induction l as [|a l IH]; [reflexivity|].
  cbn [map bsum fold_right filter]. fold (bsum (map p l)). rewrite IH.
  destruct (p a); cbn [List.length Z.b2z]; rewrite ?Nat2Z.inj_succ; lia.
Qed.

Lemma count_if_filter {A : Type} (p q : A -> bool) (l : list A) :
  count_if p (filter q l) = count_if (fun a => q a && p a) l.
Proof.
  unfold count_if. now rewrite filter_filter.
Qed.

Lemma count_if_ext_in {A : Type} (p q : A -> bool) (l : list A) :
  (forall a, In a l -> p a = q a) -> count_if p l = count_if q l.
Proof.
  intros H. unfold count_if. f_equal. f_equal. now apply filter_ext_in.
Qed.

Lemma bsum_nonneg (l : list bool) : (0 <= bsum l)%Z.
Proof.
  induction l as [|b l IH]; [unfold bsum; simpl; lia|].
  change (bsum (b :: l)) with (Z.b2z b + bsum l)%Z. destruct b; simpl Z.b2z; lia.
Qed.

(** The rows of [region_stats]: one per state present in the frame. *)
Lemma in_region_stats (df : list Df.row) (row : Region.row) :
  In row (region_stats df)
  <-> exists s,
        In (Some s) (map Df.customer_state df)
        /\ row = add_ratios (agg_group s (group_rows s df)).
Proof.
  unfold region_stats, aggregate. rewrite map_map, in_map_iff.
  split; intros (s & H1 & H2).
  - exists s. rewrite in_group_keys in H2. auto.
  - exists s. rewrite in_group_keys. auto.
Qed.

(** No two rows of [region_stats] are of the same state. *)
Lemma region_states_nodup (df : list Df.row) :
  NoDup (map (fun row => Agg.customer_state (Region.agg row)) (region_stats df)).
Proof.
  unfold region_stats, aggregate. rewrite !map_map. simpl.
  rewrite map_id. apply nodup_group_keys.
Qed.

(** The group of state [s], in terms of the merged order records. *)
Lemma group_rows_of_records (snap : datetime) (order_items : list Items.row)
    (records : list (Orders.row * key)) (s : string) :
  group_rows s (map (row_of_record snap order_items) records)
  = map (row_of_record snap order_items) (filter (in_state s) records).
Proof.
  unfold group_rows. now rewrite filter_map_comm.
Qed.

(** C2, as amended.  For every customer state of the merged order
    data, [region_stats] has a row for that state, and in it:
    [total_orders] is the number of the state's order records whose
    [order_id] is present (hence the number of its records when none
    lacks it); [success_cnt] and [canceled_cnt] are the numbers of its
    records of status 'delivered' and 'canceled'; [total_order_value]
    is the sum of the item-price totals of its records (0 for an order
    without items); [canceled_value] is that sum over its canceled
    records. *)
Theorem region_counts_and_values (orders : list Orders.row)
    (customers : list Customers.row) (order_items : list Items.row) (s : string) :
  let records := order_records orders customers in
  let total := fun rec => order_total order_items (Orders.order_id (fst rec)) in
  In (Some s) (map snd records) ->
  (exists row,
     In row (region_stats (process_data orders customers order_items))
     /\ Agg.customer_state (Region.agg row) = s)
  /\ forall row,
       In row (region_stats (process_data orders customers order_items)) ->
       Agg.customer_state (Region.agg row) = s ->
       Agg.total_orders (Region.agg row)
       = count_if (fun rec => in_state s rec && has_order_id rec) records
       /\ ((forall rec, In rec records -> in_state s rec = true ->
              has_order_id rec = true) ->
           Agg.total_orders (Region.agg row) = count_if (in_state s) records)
       /\ Agg.success_cnt (Region.agg row)
          = count_if (fun rec => in_state s rec && has_status "delivered" rec) records
       /\ Agg.canceled_cnt (Region.agg row)
          = count_if (fun rec => in_state s rec && has_status "canceled" rec) records
       /\ Agg.total_order_value (Region.agg row)
          = qsum (map total (filter (in_state s) records))
       /\ Agg.canceled_value (Region.agg row)
          = qsum (map total
                    (filter (fun rec => in_state s rec && has_status "canceled" rec)
                       records)).
Proof.
  intros records total Hs.
  rewrite process_data_spec. fold records.
  set (snap := snapshot_date _).
  assert (Hstates : map Df.customer_state (map (row_of_record snap order_items) records)
                    = map snd records) by (now rewrite map_map).
  split.
  - exists (add_ratios
              (agg_group s
                 (group_rows s (map (row_of_record snap order_items) records)))).
    split; [|reflexivity].
    apply in_region_stats. exists s. split; [|reflexivity]. now rewrite Hstates.
  - intros row Hrow Hst. apply in_region_stats in Hrow.
    destruct Hrow as (s' & _ & ->). simpl in Hst. subst s'. simpl.
    rewrite group_rows_of_records.
    assert (Htot : Agg.total_orders
                     (agg_group s (map (row_of_record snap order_items)
                                     (filter (in_state s) records)))
                   = count_if (fun rec => in_state s rec && has_order_id rec) records).
    { simpl. unfold count_notna. rewrite !map_map.
      rewrite (bsum_map_count
                 (fun rec => match Df.order_id (row_of_record snap order_items rec) with
                             | Some _ => true
                             | None => false
                             end)).
      now rewrite count_if_filter. }
    simpl in Htot. rewrite Htot.
    split; [reflexivity|]. split.
    { intros Hall. apply count_if_ext_in. intros rec Hrec.
      destruct (in_state s rec) eqn:E; [|reflexivity].
      simpl. now apply Hall. }
    rewrite !filter_map_comm, !map_map. simpl.
    rewrite (bsum_map_count (has_status "delivered")),
            (bsum_map_count (has_status "canceled")), !count_if_filter.
    rewrite filter_filter.
    repeat split; reflexivity.
Qed.

(** On the sample, the row of SP exists and counts two orders. *)
Lemma region_counts_and_values_witness :
  In (Some "SP"%string) (map snd (order_records Sample.orders Sample.customers))
  /\ exists row,
       In row (region_stats Sample.df)
       /\ Agg.customer_state (Region.agg row) = "SP"%string.
Proof.
  assert (H : In (Some "SP"%string)
                (map snd (order_records Sample.orders Sample.customers)))
    by (left; reflexivity).
  split; [exact H|].
  exact (proj1 (region_counts_and_values Sample.orders Sample.customers
                  Sample.order_items "SP" H)).
Defined.

(** C2, as stated, fails: [total_orders] is not always the number of the
    state's order records.  The only record of RJ in the sample has an
    empty [order_id] cell, which ['count'] skips. *)
Lemma total_orders_counterexample :
  ~ (forall orders customers order_items row,
       In row (region_stats (process_data orders customers order_items)) ->
       Agg.total_orders (Region.agg row)
       = count_if (in_state (Agg.customer_state (Region.agg row)))
           (order_records orders customers)).
Proof.
  intros H.
  assert (Hrow : exists row,
             nth_error (region_stats
                          (process_data Sample.orders Sample.customers
                             Sample.order_items)) 1 = Some row
             /\ Agg.customer_state (Region.agg row) = "RJ"%string
             /\ Agg.total_orders (Region.agg row) = 0%Z).
  { eexists. split; [reflexivity|]. split; reflexivity. }
  destruct Hrow as (row & Hnth & Hst & Htot).
  apply nth_error_In in Hnth. specialize (H _ _ _ _ Hnth).
  rewrite Htot, Hst in H. vm_compute in H. discriminate H.
Qed.


(** ** The ratio columns *)

Lemma in_add_segments (rs : list Region.row) (delay volume : list (option segment))
    (r : Stats.row) :
  In r (add_segments rs delay volume) -> In (Stats.region r) rs.
Proof.
  unfold add_segments. rewrite in_map_iff.
  intros ([[row d] v] & <- & H). simpl.
  apply in_combine_l in H. now apply in_combine_l in H.
Qed.

(** The table returned by [load_and_process_data] is [region_stats]
    of the loaded tables, with two more columns. *)
Lemma load_and_process_data_ok
    (qcut : list fval -> result (list (option segment))) (fs : files)
    (data : list Stats.row) :
  load_and_process_data qcut fs = Ok data ->
  exists orders customers order_items delay volume,
    load_tables fs = Ok (orders, customers, order_items)
    /\ data = add_segments
                (region_stats (process_data orders customers order_items))
                delay volume.
Proof.
  unfold load_and_process_data, bind.
  destruct (load_tables fs) as [[[orders customers] order_items]|e]; [|discriminate].
  simpl. destruct (qcut _) as [delay|e]; [|discriminate].
  destruct (qcut _) as [volume|e]; [|discriminate].
  intros H. injection H as <-.
  now exists orders, customers, order_items, delay, volume.
Qed.







(** ** Exclusive flags and bounded ratios *)

Lemma bsum_cons (b : bool) (l : list bool) :
  bsum (b :: l) = (Z.b2z b + bsum l)%Z.
Proof. reflexivity. Qed.

Lemma count_if_cons {A : Type} (p : A -> bool) (a : A) (l : list A) :
  count_if p (a :: l) = (Z.b2z (p a) + count_if p l)%Z.
Proof.
  unfold count_if. simpl filter.
  destruct (p a); cbn [List.length Z.b2z]; rewrite ?Nat2Z.inj_succ; lia.
Qed.

Lemma count_if_nonneg {A : Type} (p : A -> bool) (l : list A) :
  (0 <= count_if p l)%Z.
Proof.
  unfold count_if. lia.
Qed.

Lemma count_if_pos {A : Type} (p : A -> bool) (l : list A) (a : A) :
  In a l -> p a = true -> (0 < count_if p l)%Z.
Proof.
  induction l as [|b l IH]; intros Hin Hp; [contradiction|].
  rewrite count_if_cons. pose proof (count_if_nonneg p l).
  destruct Hin as [->|Hin].
  - rewrite Hp. simpl Z.b2z. lia.
  - specialize (IH Hin Hp). destruct (p b); simpl Z.b2z; lia.
Qed.

Lemma status_exclusive (st : key) :
  is_lit st "delivered" = true -> is_lit st "canceled" = false.
Proof.
  rewrite is_lit_true. intros ->. reflexivity.
Qed.

(** Lines 56-60 set at most one of the three flags. *)
Lemma flags_exclusive (snap : datetime) (m : Merged.row) :
  (flags_set (add_columns snap m) <= 1)%Z.
Proof.
  unfold flags_set. simpl.
  destruct (is_lit (Orders.order_status (Merged.order m)) "delivered") eqn:Hs.
  - rewrite (status_exclusive _ Hs). simpl.
    destruct (dt_gt _ _); simpl; lia.
  - simpl. destruct (is_lit (Orders.order_status (Merged.order m)) "canceled"); simpl;
      destruct (dt_lt _ _); simpl; lia.
Qed.

(** The flagged rows of a group are at most its rows. *)
Lemma flagged_le_rows {A : Type} (f : A -> Df.row) (l : list A) :
  (forall a, flags_set (f a) <= 1)%Z ->
  (bsum (map Df.is_success_delay (map f l))
   + bsum (map Df.is_failure_delay (map f l))
   + bsum (map Df.is_canceled_delay (map f l))
   <= count_if (fun _ => true) l)%Z.
Proof.
  intros H. induction l as [|a l IH].
  - unfold count_if, bsum. simpl. lia.
  - cbn [map]. rewrite !bsum_cons, count_if_cons.
    specialize (H a). unfold flags_set in H. simpl Z.b2z at 4. lia.
Qed.

Lemma count_if_true_filter {A : Type} (p : A -> bool) (l : list A) :
  count_if (fun _ => true) (filter p l) = count_if p l.
Proof.
  rewrite count_if_filter. apply count_if_ext_in. intros a _. apply andb_true_r.
Qed.

(** Rounding to the nearest integer does not pass an integer bound. *)
Lemma round_half_even_le (q : Q) (k : Z) :
  q <= inject_Z k -> (round_half_even q <= k)%Z.
Proof.
  intros Hq. unfold round_half_even.
  assert (Hf : (Qfloor q <= k)%Z).
  { rewrite <- (Qfloor_Z k). now apply Qfloor_resp_le. }
  assert (Hup : inject_Z (Qfloor q) < q -> (Qfloor q + 1 <= k)%Z).
  { intros Hlt. assert (inject_Z (Qfloor q) < inject_Z k) by (eapply Qlt_le_trans; eassumption).
    rewrite <- Zlt_Qlt in H. lia. }
  destruct (q - inject_Z (Qfloor q) ?= 1 # 2) eqn:E.
  - destruct (Z.even (Qfloor q)); [assumption|].
    apply Hup. apply Qeq_alt in E. lra.
  - assumption.
  - apply Hup. apply Qgt_alt in E. lra.
Qed.

(** A ratio of counts with a positive divisor that bounds the dividend
    is at most 100 after scaling and rounding. *)
Lemma ratio_at_most_100 (m n : Z) :
  (0 <= m <= n)%Z -> (0 < n)%Z ->
  fgt (fround2 (fmul100 (fdiv (of_int m) (of_int n)))) (Finite 100) = false.
Proof.
  intros Hm Hn. unfold fdiv, of_int.
  assert (Hpos : 0 < inject_Z n) by (rewrite (Zlt_Qlt 0 n) in Hn; exact Hn).
  destruct (Qeq_bool (inject_Z n) 0) eqn:E.
  - apply Qeq_bool_iff in E. lra.
  - cbn [fmul100 fround2 fgt]. apply negb_false_iff, Qle_bool_iff.
    assert (Hdiv : inject_Z m / inject_Z n <= 1).
    { apply Qle_shift_div_r; [assumption|]. rewrite Qmult_1_l.
      rewrite <- Zle_Qle. lia. }
    assert (Hr : (round_half_even (inject_Z m / inject_Z n * 100 * 100) <= 10000)%Z).
    { apply round_half_even_le. set (x := inject_Z m / inject_Z n) in *.
      clearbody x. change (inject_Z 10000) with 10000. lra. }
    rewrite Zle_Qle in Hr.
    set (z := inject_Z (round_half_even _)) in *. clearbody z.
    change (inject_Z 10000) with 10000 in Hr.
    apply Qle_shift_div_r; [reflexivity|]. lra.
Qed.

Lemma total_orders_of_records (snap : datetime) (order_items : list Items.row)
    (l : list (Orders.row * key)) :
  count_notna (map Df.order_id (map (row_of_record snap order_items) l))
  = count_if has_order_id l.
Proof.
  unfold count_notna. rewrite !map_map. apply (bsum_map_count has_order_id).
Qed.

(** C8, as amended.  On every row of the frame at most one of the
    three delay flags is set.  Hence in every region the numerator of
    'Total Delay Ratio (%)' is at most the number of the region's order
    records; and the ratio does not exceed 100 in a region none of
    whose records lacks its [order_id] (the divisor [total_orders]
    counts only the records that have one). *)
Theorem delay_flags_exclusive (orders : list Orders.row)
    (customers : list Customers.row) (order_items : list Items.row) :
  let df := process_data orders customers order_items in
  let records := order_records orders customers in
  (forall r, In r df -> (flags_set r <= 1)%Z)
  /\ forall row, In row (region_stats df) ->
       let s := Agg.customer_state (Region.agg row) in
       (Agg.success_delay_cnt (Region.agg row)
        + Agg.failure_delay_cnt (Region.agg row)
        + Agg.canceled_delay_cnt (Region.agg row)
        <= count_if (in_state s) records)%Z
       /\ ((forall rec, In rec records -> in_state s rec = true ->
              has_order_id rec = true) ->
           fgt (Region.total_delay_ratio row) (Finite 100) = false).
Proof.
  intros df records. subst df. rewrite process_data_spec. fold records.
  set (snap := snapshot_date _). split.
  - intros r Hr. apply in_map_iff in Hr. destruct Hr as (rec & <- & _).
    apply flags_exclusive.
  - intros row Hrow. apply in_region_stats in Hrow.
    destruct Hrow as (s & Hs & ->). cbn zeta.
    cbn [Region.agg add_ratios Agg.customer_state agg_group Region.total_delay_ratio].
    rewrite group_rows_of_records.
    assert (Hnum :
      (bsum (map Df.is_success_delay
               (map (row_of_record snap order_items) (filter (in_state s) records)))
       + bsum (map Df.is_failure_delay
                 (map (row_of_record snap order_items) (filter (in_state s) records)))
       + bsum (map Df.is_canceled_delay
                 (map (row_of_record snap order_items) (filter (in_state s) records)))
       <= count_if (in_state s) records)%Z).
    { rewrite <- count_if_true_filter. apply flagged_le_rows.
      intros rec. apply flags_exclusive. }
    split; [exact Hnum|].
    intros Hall. unfold total_delay_ratio_of.
    cbn [Agg.success_delay_cnt Agg.failure_delay_cnt Agg.canceled_delay_cnt
         Agg.total_orders agg_group].
    rewrite total_orders_of_records, count_if_filter.
    rewrite (count_if_ext_in (fun rec => in_state s rec && has_order_id rec)
               (in_state s) records).
    + apply ratio_at_most_100.
      * split; [|exact Hnum].
        pose proof (bsum_nonneg (map Df.is_success_delay
          (map (row_of_record snap order_items) (filter (in_state s) records)))).
        pose proof (bsum_nonneg (map Df.is_failure_delay
          (map (row_of_record snap order_items) (filter (in_state s) records)))).
        pose proof (bsum_nonneg (map Df.is_canceled_delay
          (map (row_of_record snap order_items) (filter (in_state s) records)))).
        lia.
      * rewrite map_map in Hs. apply in_map_iff in Hs.
        destruct Hs as (rec & Hst & Hrec).
        apply (count_if_pos (in_state s) records rec Hrec).
        unfold in_state. apply key_eqb_eq. exact Hst.
    + intros rec Hrec. destruct (in_state s rec) eqn:E; [|reflexivity].
      simpl. now apply Hall.
Qed.

(** On the sample, every record of SP has its [order_id], and the
    ratio of SP does not exceed 100. *)
Lemma delay_flags_exclusive_witness :
  exists row,
    nth_error (region_stats Sample.df) 2 = Some row
    /\ Agg.customer_state (Region.agg row) = "SP"%string
    /\ fgt (Region.total_delay_ratio row) (Finite 100) = false.
Proof.
  eexists. split; [reflexivity|]. split; [reflexivity|].
  refine (proj2 (proj2 (delay_flags_exclusive Sample.orders Sample.customers
                          Sample.order_items) _ _) _).
  - apply nth_error_In with 2%nat. reflexivity.
  - intros rec Hrec Hst.
    repeat (destruct Hrec as [<-|Hrec]; [first [reflexivity | discriminate Hst]|]).
    contradiction.
Defined.

(** C8, as stated, fails: the ratio can exceed 100.  The only record
    of RJ in the sample is a late delivery whose [order_id] cell is
    empty: the numerator is 1, [total_orders] is 0, the ratio is
    infinite. *)
Lemma ratio_exceeds_100_counterexample :
  ~ (forall orders customers order_items row,
       In row (region_stats (process_data orders customers order_items)) ->
       fgt (Region.total_delay_ratio row) (Finite 100) = false).
Proof.
  intros H.
  assert (Hrow : exists row,
             nth_error (region_stats
                          (process_data Sample.orders Sample.customers
                             Sample.order_items)) 1 = Some row
             /\ Region.total_delay_ratio row = PosInf).
  { eexists. split; reflexivity. }
  destruct Hrow as (row & Hnth & Hratio).
  apply nth_error_In in Hnth. specialize (H _ _ _ _ Hnth).
  rewrite Hratio in H. discriminate H.
Qed.


(** ** Delay-intensity buckets *)

Lemma categorize_delay_some (d : Z) :
  categorize_delay (Some d) = None <-> (d <= 0)%Z.
Proof.
  unfold categorize_delay.
  destruct (Z.leb_spec d 0); [tauto|].
  split; [|lia].
  destruct (d <=? 3)%Z; [discriminate|]. destruct (d <=? 7)%Z; discriminate.
Qed.

(** A row falls in at most one bucket, and only if it is flagged as a
    failure delay or a canceled delay. *)
Lemma buckets_of_row (snap : datetime) (m : Merged.row) :
  let r := add_columns snap m in
  (Z.b2z (is_label (Df.delay_intensity r) D1_3)
   + Z.b2z (is_label (Df.delay_intensity r) D4_7)
   + Z.b2z (is_label (Df.delay_intensity r) D7_plus)
   = Z.b2z (has_category r))%Z
  /\ (Z.b2z (has_category r)
      <= Z.b2z (Df.is_failure_delay r) + Z.b2z (Df.is_canceled_delay r))%Z.
Proof.
  intros r. unfold has_category. split.
  - destruct (Df.delay_intensity r) as [[| |]|]; reflexivity.
  - subst r. cbn [Df.delay_intensity Df.is_failure_delay Df.is_canceled_delay add_columns].
    set (fd := (_ && _) && _). set (cd := _ && _).
    destruct cd, fd; simpl orb; cbv iota;
      try (destruct (categorize_delay _); simpl; lia).
    simpl. lia.
Qed.

Lemma buckets_of_group {A : Type} (f : A -> Df.row) (l : list A) :
  (forall a,
     (Z.b2z (is_label (Df.delay_intensity (f a)) D1_3)
      + Z.b2z (is_label (Df.delay_intensity (f a)) D4_7)
      + Z.b2z (is_label (Df.delay_intensity (f a)) D7_plus)
      = Z.b2z (has_category (f a)))%Z
     /\ (Z.b2z (has_category (f a))
         <= Z.b2z (Df.is_failure_delay (f a))
            + Z.b2z (Df.is_canceled_delay (f a)))%Z) ->
  (bsum (map (fun r => is_label (Df.delay_intensity r) D1_3) (map f l))
   + bsum (map (fun r => is_label (Df.delay_intensity r) D4_7) (map f l))
   + bsum (map (fun r => is_label (Df.delay_intensity r) D7_plus) (map f l))
   = count_if has_category (map f l))%Z
  /\ (count_if has_category (map f l)
      <= bsum (map Df.is_failure_delay (map f l))
         + bsum (map Df.is_canceled_delay (map f l)))%Z.
Proof.
  intros H. induction l as [|a l [IH1 IH2]].
  - unfold count_if, bsum. simpl. lia.
  - cbn [map]. rewrite !bsum_cons, count_if_cons.
    destruct (H a) as [H1 H2]. lia.
Qed.

(** C9.  In every region row, delay_1_3 + delay_4_7 + delay_7_plus is
    the number of the region's rows that have a category, and it is at
    most failure_delay_cnt + canceled_delay_cnt.  A row has a category
    only if it is flagged as a failure delay or a canceled delay; and a
    flagged row has one iff its delay, in whole days from the estimated
    date to the snapshot date, is positive: when the whole-day delay
    truncates to zero or less the row has no category and is counted in
    no bucket. *)
Theorem delay_buckets_bounded (orders : list Orders.row)
    (customers : list Customers.row) (order_items : list Items.row) :
  let df := process_data orders customers order_items in
  (forall row, In row (region_stats df) ->
     (Agg.delay_1_3 (Region.agg row) + Agg.delay_4_7 (Region.agg row)
      + Agg.delay_7_plus (Region.agg row)
      = count_if has_category
          (group_rows (Agg.customer_state (Region.agg row)) df))%Z
     /\ (Agg.delay_1_3 (Region.agg row) + Agg.delay_4_7 (Region.agg row)
         + Agg.delay_7_plus (Region.agg row)
         <= Agg.failure_delay_cnt (Region.agg row)
            + Agg.canceled_delay_cnt (Region.agg row))%Z)
  /\ (forall r, In r df ->
        (has_category r = true -> undelivered_delay r = true)
        /\ (undelivered_delay r = true ->
            exists e m,
              Df.order_estimated_delivery_date r = Some e
              /\ is_latest_purchase orders m
              /\ (has_category r = false <-> (days_overdue m e <= 0)%Z)
              /\ (has_category r = false ->
                  forall l, is_label (Df.delay_intensity r) l = false))).
Proof.
  intros df. subst df. rewrite process_data_spec.
  set (snap := snapshot_date _). split.
  - intros row Hrow. apply in_region_stats in Hrow.
    destruct Hrow as (s & _ & ->).
    cbn [Region.agg add_ratios Agg.customer_state agg_group Agg.delay_1_3
         Agg.delay_4_7 Agg.delay_7_plus Agg.failure_delay_cnt Agg.canceled_delay_cnt].
    rewrite group_rows_of_records.
    destruct (buckets_of_group (row_of_record snap order_items)
                (filter (in_state s) (order_records orders customers))) as [H1 H2].
    { intros rec. apply buckets_of_row. }
    split; [exact H1 | lia].
  - intros r Hr. apply in_map_iff in Hr. destruct Hr as (rec & <- & _).
    unfold undelivered_delay. split.
    + intros Hc. destruct (buckets_of_row snap
        {| Merged.order := fst rec; Merged.customer_state := snd rec;
           Merged.price := order_total order_items (Orders.order_id (fst rec)) |})
        as [_ Hle].
      unfold row_of_record in Hc |- *. cbv zeta in Hle. rewrite Hc in Hle.
      destruct (Df.is_failure_delay _), (Df.is_canceled_delay _);
        simpl in Hle |- *; solve [reflexivity | lia].
    + intros Hflag.
      assert (Hlt : dt_lt (Orders.order_estimated_delivery_date (fst rec)) snap = true).
      { unfold row_of_record in Hflag. simpl in Hflag.
        apply orb_true_iff in Hflag. rewrite !andb_true_iff in Hflag. tauto. }
      apply dt_lt_true in Hlt. destruct Hlt as (e & sn & He & Hsn & Hlt).
      pose proof Hsn as Hm. unfold snap in Hm.
      apply snapshot_date_some in Hm. destruct Hm as (m & Hm & ->).
      exists e, m. split; [exact He|]. split; [exact Hm|].
      assert (Hint : Df.delay_intensity (row_of_record snap order_items rec)
                     = categorize_delay (Some ((m + day_ns - e) / day_ns)%Z)).
      { unfold row_of_record in Hflag |- *.
        cbn [Df.delay_intensity Df.is_failure_delay Df.is_canceled_delay add_columns]
          in Hflag |- *.
        rewrite orb_comm in Hflag. rewrite Hflag.
        rewrite Hsn. cbn [Merged.order]. rewrite He. reflexivity. }
      unfold has_category. rewrite Hint. split.
      * unfold days_overdue. rewrite Z.quot_div_nonneg by (first [lia | reflexivity]).
        rewrite <- categorize_delay_some.
        destruct (categorize_delay _); split; congruence.
      * destruct (categorize_delay _); [discriminate|]. reflexivity.
Qed.

(** On the sample, the fifth order is a failure delay whose estimate
    lies half a day before the snapshot: zero whole days, no category. *)
Lemma delay_buckets_bounded_witness :
  exists r,
    nth_error Sample.df 4 = Some r
    /\ undelivered_delay r = true
    /\ has_category r = false
    /\ exists e m,
         Df.order_estimated_delivery_date r = Some e
         /\ is_latest_purchase Sample.orders m
         /\ (has_category r = false <-> (days_overdue m e <= 0)%Z)
         /\ (has_category r = false ->
             forall l, is_label (Df.delay_intensity r) l = false).
Proof.
  eexists. split; [reflexivity|]. split; [reflexivity|]. split; [reflexivity|].
  refine (proj2 (proj2 (delay_buckets_bounded Sample.orders Sample.customers
                          Sample.order_items) _ _) _).
  - apply nth_error_In with 4%nat. reflexivity.
  - reflexivity.
Defined.

(** ** Loading with fallback *)

(** [load_and_process_data] loads the tables and then works on them. *)
Lemma load_and_process_data_eq
    (qcut : list fval -> result (list (option segment))) (fs : files) :
  load_and_process_data qcut fs = (t <- load_tables fs ;; process_tables qcut t).
Proof. reflexivity. Qed.

(** A parquet read that raises makes the [try] block raise. *)
Lemma read_parquet_raises (fs : files) (e : exn) :
  orders_parquet fs = Raise e \/ customers_parquet fs = Raise e
  \/ order_items_parquet fs = Raise e ->
  exists e0, read_parquet fs = Raise e0.
Proof.
  unfold read_parquet, bind. intros H.
  destruct (orders_parquet fs); [|eexists; reflexivity].
  destruct (customers_parquet fs); [|eexists; reflexivity].
  destruct (order_items_parquet fs); [|eexists; reflexivity].
  destruct H as [H|[H|H]]; discriminate H.
Qed.

(** C5, as amended.  When the three parquet reads succeed,
    [load_and_process_data] works on their tables.  When one of them
    raises, the exception is caught and the three CSV files are read
    instead, in the order orders, customers, order items: the function
    works on their tables when the three reads succeed, and when one
    raises, the exception of the first CSV read that raises is the
    exception that [load_and_process_data] raises. *)
Theorem load_tables_fallback
    (qcut : list fval -> result (list (option segment))) (fs : files) :
  (forall o c i,
     orders_parquet fs = Ok o -> customers_parquet fs = Ok c ->
     order_items_parquet fs = Ok i ->
     load_tables fs = Ok (o, c, i)
     /\ load_and_process_data qcut fs = process_tables qcut (o, c, i))
  /\ (forall e,
        orders_parquet fs = Raise e \/ customers_parquet fs = Raise e
        \/ order_items_parquet fs = Raise e ->
        (forall o c i,
           orders_csv fs = Ok o -> customers_csv fs = Ok c ->
           order_items_csv fs = Ok i ->
           load_tables fs = Ok (o, c, i)
           /\ load_and_process_data qcut fs = process_tables qcut (o, c, i))
        /\ (forall e',
              orders_csv fs = Raise e' ->
              load_tables fs = Raise e'
              /\ load_and_process_data qcut fs = Raise e')
        /\ (forall o e',
              orders_csv fs = Ok o -> customers_csv fs = Raise e' ->
              load_tables fs = Raise e'
              /\ load_and_process_data qcut fs = Raise e')
        /\ (forall o c e',
              orders_csv fs = Ok o -> customers_csv fs = Ok c ->
              order_items_csv fs = Raise e' ->
              load_tables fs = Raise e'
              /\ load_and_process_data qcut fs = Raise e')).
Proof.
  split.
  - intros o c i Ho Hc Hi. rewrite load_and_process_data_eq.
    unfold load_tables, read_parquet, try_except, bind.
    rewrite Ho, Hc, Hi. split; reflexivity.
  - intros e He. destruct (read_parquet_raises fs He) as (e0 & Hp).
    rewrite load_and_process_data_eq. unfold load_tables, try_except.
    rewrite Hp. unfold read_csv, bind.
    split; [|split; [|split]].
    + intros o c i -> -> ->. split; reflexivity.
    + intros e' ->. split; reflexivity.
    + intros o e' -> ->. split; reflexivity.
    + intros o c e' -> -> ->. split; reflexivity.
Qed.

(** With an unreadable customers parquet file the CSV tables are
    loaded, not the one order of the orders parquet file; and with no
    readable parquet file and no customers CSV file, the exception of
    the customers CSV read is the one raised, whatever [pd.qcut] would
    do. *)
Lemma load_tables_fallback_witness :
  load_tables Sample.fs_stale_parquet
  = Ok (Sample.orders, Sample.customers, Sample.order_items)
  /\ orders_parquet Sample.fs_stale_parquet = Ok [Sample.o1]
  /\ load_and_process_data (fun _ => Raise (Exn "ValueError")) Sample.fs_csv_missing
     = Raise (Exn "FileNotFoundError").
Proof.
  split; [|split; [reflexivity|]].
  - refine (proj1 (proj1 (proj2 (load_tables_fallback
                                   (fun _ => Raise (Exn "ValueError"))
                                   Sample.fs_stale_parquet)
                            (Exn "ArrowInvalid") _) _ _ _ _ _ _)).
    + right. left. reflexivity.
    + reflexivity.
    + reflexivity.
    + reflexivity.
  - refine (proj2 (proj1 (proj2 (proj2 (proj2 (load_tables_fallback
                                   (fun _ => Raise (Exn "ValueError"))
                                   Sample.fs_csv_missing)
                            (Exn "ArrowInvalid") _))) _ _ _ _)).
    + left. reflexivity.
    + reflexivity.
    + reflexivity.
Defined.

(** C5, as stated, fails: a loading error can propagate.  With no data
    file at all, the CSV read of the handler raises. *)
Lemma load_error_propagates_counterexample :
  ~ (forall fs, exists t, load_tables fs = Ok t).
Proof.
  intros H. destruct (H Sample.fs_none) as (t & Ht). discriminate Ht.
Qed.

(** ** The GeoJSON fetch *)

(** C6.  [get_brazil_geojson] never raises: it returns the decoded
    JSON value when the fetch and the decoding succeed, and [None] when
    either raises. *)
Theorem get_brazil_geojson_total (response json : Type)
    (requests_get : result response) (response_json : response -> result json) :
  (exists v, get_brazil_geojson requests_get response_json = Ok v)
  /\ (forall r j,
        requests_get = Ok r -> response_json r = Ok j ->
        get_brazil_geojson requests_get response_json = Ok (Some j))
  /\ (forall e,
        requests_get = Raise e ->
        get_brazil_geojson requests_get response_json = Ok None)
  /\ (forall r e,
        requests_get = Ok r -> response_json r = Raise e ->
        get_brazil_geojson requests_get response_json = Ok None).
Proof.
  unfold get_brazil_geojson, try_except, bind. repeat split.
  - destruct requests_get as [r|e]; [|eexists; reflexivity].
    destruct (response_json r); eexists; reflexivity.
  - intros r j -> ->. reflexivity.
  - intros e ->. reflexivity.
  - intros r e -> ->. reflexivity.
Qed.

(** A response whose body is not JSON gives [None]. *)
Lemma get_brazil_geojson_total_witness :
  get_brazil_geojson (Ok "<html>"%string)
    (fun _ : string => @Raise Z (Exn "JSONDecodeError"))
  = Ok None.
Proof.
  refine (proj2 (proj2 (proj2 (get_brazil_geojson_total (Ok "<html>"%string)
            (fun _ : string => @Raise Z (Exn "JSONDecodeError")))))
            "<html>"%string (Exn "JSONDecodeError") _ _);
    reflexivity.
Defined.

(** ** The sidebar filter *)

(** C10.  With no state selected, [filtered_data] is the whole table.
    With some states selected, it is the table restricted, in order, to
    the rows whose state is selected. *)
Theorem filtered_data_selection (data : list Stats.row) (selected_states : list string) :
  (selected_states = [] -> filtered_data data selected_states = data)
  /\ (selected_states <> [] ->
      filtered_data data selected_states
      = filter (fun r => if in_dec string_dec (state_of r) selected_states
                         then true else false) data
      /\ forall r,
           In r (filtered_data data selected_states)
           <-> In r data /\ In (state_of r) selected_states).
Proof.
  split.
  - intros ->. reflexivity.
  - intros Hne. destruct selected_states as [|s ss]; [congruence|].
    unfold filtered_data.
    assert (Hext : forall r,
              existsb (String.eqb (state_of r)) (s :: ss)
              = if in_dec string_dec (state_of r) (s :: ss) then true else false).
    { intros r. destruct (in_dec string_dec (state_of r) (s :: ss)) as [Hin|Hnin].
      - apply existsb_exists. exists (state_of r). split; [exact Hin|].
        apply String.eqb_refl.
      - destruct (existsb _ _) eqn:E; [|reflexivity].
        apply existsb_exists in E. destruct E as (x & Hx & Heq).
        apply String.eqb_eq in Heq. subst x. contradiction. }
    split; [apply filter_ext, Hext|].
    intros r. rewrite filter_In, Hext.
    destruct (in_dec string_dec (state_of r) (s :: ss)); intuition congruence.
Qed.

(** On the sample table: no selection shows AL, RJ and SP; selecting
    SP and AL shows AL and SP. *)
Lemma filtered_data_selection_witness :
  filtered_data Sample.table [] = Sample.table
  /\ map state_of (filtered_data Sample.table ["SP"; "AL"]%string)
     = ["AL"; "SP"]%string.
Proof.
  split.
  - apply (proj1 (filtered_data_selection Sample.table [])). reflexivity.
  - assert (Hne : ["SP"; "AL"]%string <> []) by discriminate.
    rewrite (proj1 (proj2 (filtered_data_selection Sample.table
                             ["SP"; "AL"]%string) Hne)).
    reflexivity.
Defined.


(* ================================================================= *)
(** * Further properties of the pipeline *)

(** ** Group keys *)

Lemma insert_sorted_hdrel (a k : string) (l : list string) :
  String.leb a k = true ->
  HdRel (fun x y => String.leb x y = true) a l ->
  HdRel (fun x y => String.leb x y = true) a (insert_sorted k l).
Proof.
  intros Hak Hl. destruct l as [|b l]; simpl.
  - now constructor.
  - destruct (String.leb k b); constructor; [assumption|].
    now inversion Hl.
Qed.

Lemma insert_sorted_sorted (k : string) (l : list string) :
  Sorted (fun x y => String.leb x y = true) l ->
  Sorted (fun x y => String.leb x y = true) (insert_sorted k l).
Proof.
  induction 1 as [|a l Hs IH Hhd]; simpl.
  - repeat constructor.
  - destruct (String.leb k a) eqn:E.
    + constructor; [now constructor|]. now constructor.
    + constructor; [exact IH|].
      apply insert_sorted_hdrel; [|exact Hhd].
      destruct (String.leb_total a k) as [H|H]; [exact H | congruence].
Qed.

Lemma sort_keys_sorted (l : list string) :
  Sorted (fun x y => String.leb x y = true) (sort_keys l).
Proof.
  induction l as [|x l IH]; simpl; [constructor|].
  now apply insert_sorted_sorted.
Qed.

Lemma region_states_eq (df : list Df.row) :
  map (fun row => Agg.customer_state (Region.agg row)) (region_stats df)
  = group_keys (map Df.customer_state df).
Proof.
  unfold region_stats, aggregate. rewrite !map_map. simpl. apply map_id.
Qed.

(** X1.  [region_stats] has its rows in ascending order of state, no
    two rows for the same state, and a row for a state exactly when
    some row of the frame has that state; rows of the frame whose state
    is missing give no region. *)
Theorem region_states_sorted (df : list Df.row) :
  let states :=
    map (fun row => Agg.customer_state (Region.agg row)) (region_stats df) in
  Sorted (fun x y => String.leb x y = true) states
  /\ NoDup states
  /\ forall s,
       In s states <-> exists r, In r df /\ Df.customer_state r = Some s.
Proof.
  intros states. subst states. rewrite region_states_eq. split; [|split].
  - apply sort_keys_sorted.
  - apply nodup_group_keys.
  - intros s. rewrite in_group_keys, in_map_iff. split.
    + intros (r & Hr & Hin). now exists r.
    + intros (r & Hin & Hr). now exists r.
Qed.

(** ** The item totals of line 44 *)

(** X2.  [order_values] has one row per order identifier present in
    the item table, and its price is the sum of the prices present
    among the items of that order; items without an identifier are in
    no row. *)
Theorem order_values_spec (order_items : list Items.row) :
  NoDup (map fst (order_values order_items))
  /\ forall k v,
       In (k, v) (order_values order_items)
       <-> (exists i, In i order_items /\ Items.order_id i = Some k)
           /\ v = order_total order_items (Some k).
Proof.
  unfold order_values. split.
  - rewrite map_map. simpl. rewrite map_id. apply nodup_group_keys.
  - intros k v. rewrite in_map_iff. split.
    + intros (k' & Heq & Hin). injection Heq as -> <-.
      apply in_group_keys, in_map_iff in Hin. destruct Hin as (i & Hi & Hin).
      split; [now exists i|].
      unfold order_total. now rewrite (filter_ext _ _ (same_order_ext k)).
    + intros ((i & Hin & Hi) & ->). exists k. split.
      * unfold order_total. now rewrite (filter_ext _ _ (same_order_ext k)).
      * apply in_group_keys, in_map_iff. now exists i.
Qed.

(** ** Rows per order *)

Lemma filter_key_nodup {B : Type} (kr : B -> key) (k : key) (r : list B) :
  NoDup (map kr r) ->
  (List.length (filter (fun b => key_eqb k (kr b)) r) <= 1)%nat.
Proof.
  induction r as [|b r IH]; simpl; intros Hnd; [lia|].
  inversion Hnd as [|? ? Hb Hr]; subst.
  destruct (key_eqb k (kr b)) eqn:E; [|now apply IH].
  apply key_eqb_eq in E. subst k. simpl.
  rewrite filter_none; [simpl; lia|].
  intros b' Hb'. destruct (key_eqb (kr b) (kr b')) eqn:E'; [|reflexivity].
  apply key_eqb_eq in E'. exfalso. apply Hb. rewrite E'. now apply in_map.
Qed.

Lemma length_order_records (orders : list Orders.row) (customers : list Customers.row) :
  List.length (order_records orders customers)
  = list_sum
      (map (fun o => Nat.max 1 (List.length (matching_customers customers o))) orders).
Proof.
  unfold order_records, merge_left. rewrite length_map, length_flat_map.
  f_equal. apply map_ext. intros o. unfold matching_customers.
  destruct (filter _ customers) as [|c ms]; [reflexivity|].
  rewrite length_map. simpl. lia.
Qed.

Lemma order_records_unique_customers (orders : list Orders.row)
    (customers : list Customers.row) :
  NoDup (map Customers.customer_id customers) ->
  map fst (order_records orders customers) = orders.
Proof.
  intros Hnd. unfold order_records, merge_left. rewrite map_map. simpl.
  induction orders as [|o orders IH]; simpl; [reflexivity|].
  rewrite map_app, IH. 
  pose proof (@filter_key_nodup _ Customers.customer_id (Orders.customer_id o)
                customers Hnd) as Hle.
  destruct (filter _ customers) as [|c [|c' ms]]; simpl in Hle |- *;
    [reflexivity | reflexivity | lia].
Qed.

(** X3.  The frame has, for each order, as many rows as customer rows
    match its [customer_id], and one row when none matches; the merge
    with the item totals adds no row.  So no order is lost, and when
    the customer identifiers are distinct the frame is the orders
    table row for row. *)
Theorem rows_per_order (orders : list Orders.row) (customers : list Customers.row)
    (order_items : list Items.row) :
  let df := process_data orders customers order_items in
  List.length df
  = list_sum
      (map (fun o => Nat.max 1 (List.length (matching_customers customers o))) orders)
  /\ (List.length orders <= List.length df)%nat
  /\ (NoDup (map Customers.customer_id customers) ->
      Forall2 row_of_order orders df).
Proof.
  intros df. subst df. rewrite process_data_spec, length_map, length_order_records.
  split; [reflexivity|]. split.
  - unfold list_sum. induction orders as [|o orders IH]; cbn -[Nat.max]; lia.
  - intros Hnd. pose proof (@order_records_unique_customers orders customers Hnd) as Hfst.
    set (snap := snapshot_date _). clearbody snap.
    revert Hfst. generalize (order_records orders customers) as recs.
    induction orders as [|o orders IH]; intros [|rec recs] Hfst;
      try discriminate Hfst; simpl; constructor.
    + simpl in Hfst. injection Hfst as <- _. repeat split.
    + apply IH. simpl in Hfst. now injection Hfst.
Qed.

(** The customers of the sample have distinct identifiers: five
    orders, five rows. *)
Lemma rows_per_order_witness :
  NoDup (map Customers.customer_id Sample.customers)
  /\ Forall2 row_of_order Sample.orders Sample.df.
Proof.
  assert (Hnd : NoDup (map Customers.customer_id Sample.customers)).
  { repeat constructor; simpl; intuition discriminate. }
  split; [exact Hnd|].
  exact (proj2 (proj2 (rows_per_order Sample.orders Sample.customers
                         Sample.order_items)) Hnd).
Defined.

(** ** What the regions add up to *)

Lemma zsum_map_add {A : Type} (f g : A -> Z) (l : list A) :
  zsum (map (fun a => (f a + g a)%Z) l) = (zsum (map f l) + zsum (map g l))%Z.
Proof.
  unfold zsum. induction l as [|a l IH]; simpl; [reflexivity|]. rewrite IH. lia.
Qed.

Lemma zsum_map_zero {A : Type} (f : A -> Z) (l : list A) :
  (forall a, In a l -> f a = 0%Z) -> zsum (map f l) = 0%Z.
Proof.
  unfold zsum. induction l as [|a l IH]; simpl; intros H; [reflexivity|].
  rewrite (H a) by now left. rewrite IH; [reflexivity|]. intros; apply H; now right.
Qed.

(** Among distinct group keys, the key of a row is met once. *)
Lemma zsum_key_indicator (k : key) (b : bool) (keys : list string) :
  NoDup keys ->
  (forall s, k = Some s -> In s keys) ->
  zsum (map (fun s => Z.b2z (key_eqb k (Some s) && b)) keys)
  = Z.b2z (match k with Some _ => b | None => false end).
Proof.
  destruct k as [s0|]; intros Hnd Hin.
  - specialize (Hin s0 eq_refl). induction Hnd as [|x keys Hx Hnd IH].
    + contradiction.
    + change (zsum (map ?f (x :: keys))) with (f x + zsum (map f keys))%Z.
      destruct Hin as [->|Hin].
      * rewrite zsum_map_zero.
        -- simpl. rewrite String.eqb_refl. simpl. lia.
        -- intros s Hs. simpl. destruct (String.eqb_spec s0 s) as [->|_];
             [contradiction | reflexivity].
      * rewrite (IH Hin). simpl. destruct (String.eqb_spec s0 x) as [->|_];
          [contradiction | simpl; lia].
  - apply zsum_map_zero. reflexivity.
Qed.

(** Every row with a key falls in exactly one group; a row without a
    key falls in none. *)
Lemma group_conservation {A : Type} (st : A -> key) (p : A -> bool)
    (l : list A) (keys : list string) :
  NoDup keys ->
  (forall a s, In a l -> st a = Some s -> In s keys) ->
  zsum (map (fun s => count_if (fun a => key_eqb (st a) (Some s) && p a) l) keys)
  = count_if (fun a => match st a with Some _ => p a | None => false end) l.
Proof.
  intros Hnd. induction l as [|a l IH]; intros Hin.
  - apply zsum_map_zero. reflexivity.
  - rewrite count_if_cons, <- IH by (intros; eapply Hin; [right|]; eassumption).
    rewrite <- (@zsum_key_indicator (st a) (p a) keys Hnd)
      by (intros s Hs; apply (Hin a s); [now left | exact Hs]).
    rewrite <- zsum_map_add. f_equal. apply map_ext. intros s.
    exact (@count_if_cons _ (fun a0 => key_eqb (st a0) (Some s) && p a0) a l).
Qed.

Lemma count_if_map {A B : Type} (p : B -> bool) (f : A -> B) (l : list A) :
  count_if p (map f l) = count_if (fun a => p (f a)) l.
Proof.
  unfold count_if. now rewrite filter_map_comm, length_map.
Qed.

(** A boolean column of the frame, summed per region and then over
    the regions, counts the rows that have a state and the flag. *)
Lemma region_sum_conservation (p : Df.row -> bool) (df : list Df.row) :
  zsum (map (fun s => bsum (map p (group_rows s df)))
          (group_keys (map Df.customer_state df)))
  = count_if (fun r => match Df.customer_state r with
                       | Some _ => p r
                       | None => false
                       end) df.
Proof.
  rewrite <- (@group_conservation _ Df.customer_state p df _
                (nodup_group_keys (map Df.customer_state df))).
  - f_equal. apply map_ext. intros s. unfold group_rows.
    now rewrite bsum_map_count, count_if_filter.
  - intros r s Hr Hs. apply in_group_keys. rewrite <- Hs. now apply in_map.
Qed.

(** X4.  Summed over the regions, [total_orders] is the number of order
    records that have both a customer state and an [order_id], and
    [success_cnt] and [canceled_cnt] are the numbers of delivered and
    of canceled records that have a customer state: an order whose
    customer is unknown is in the frame but in no region. *)
Theorem region_totals_conservation (orders : list Orders.row)
    (customers : list Customers.row) (order_items : list Items.row) :
  let rs := region_stats (process_data orders customers order_items) in
  let records := order_records orders customers in
  zsum (map (fun row => Agg.total_orders (Region.agg row)) rs)
  = count_if (fun rec => has_state rec && has_order_id rec) records
  /\ zsum (map (fun row => Agg.success_cnt (Region.agg row)) rs)
     = count_if (fun rec => has_state rec && has_status "delivered" rec) records
  /\ zsum (map (fun row => Agg.canceled_cnt (Region.agg row)) rs)
     = count_if (fun rec => has_state rec && has_status "canceled" rec) records.
Proof.
  intros rs records. subst rs. unfold region_stats, aggregate.
  rewrite !map_map. cbn [Region.agg add_ratios Agg.total_orders Agg.success_cnt
                         Agg.canceled_cnt agg_group].
  unfold count_notna. 
  assert (Hid : forall g, map (fun c : key => match c with Some _ => true | None => false end)
                            (map Df.order_id g)
                          = map (fun r => match Df.order_id r with
                                          | Some _ => true
                                          | None => false
                                          end) g)
    by (intros g; now rewrite map_map).
  rewrite (map_ext _ _ (fun s => f_equal bsum (Hid (group_rows s _)))).
  rewrite !region_sum_conservation, process_data_spec. fold records.
  rewrite !count_if_map.
  repeat split; apply count_if_ext_in; intros [o st] _; unfold has_state;
    simpl; now destruct st.
Qed.

(** ** Buckets in elapsed time *)

Lemma flagged_row_intensity (orders : list Orders.row)
    (customers : list Customers.row) (order_items : list Items.row)
    (rec : Orders.row * key) :
  let snap := snapshot_date (merge_tables orders customers order_items) in
  undelivered_delay (row_of_record snap order_items rec) = true ->
  exists e m,
    Orders.order_estimated_delivery_date (fst rec) = Some e
    /\ is_latest_purchase orders m
    /\ (e < m + day_ns)%Z
    /\ Df.delay_intensity (row_of_record snap order_items rec)
       = categorize_delay (Some ((m + day_ns - e) / day_ns)%Z).
Proof.
  intros snap Hflag. unfold undelivered_delay, row_of_record in Hflag.
  cbn [Df.is_failure_delay Df.is_canceled_delay add_columns Merged.order] in Hflag.
  assert (Hlt : dt_lt (Orders.order_estimated_delivery_date (fst rec)) snap = true).
  { apply orb_true_iff in Hflag. rewrite !andb_true_iff in Hflag. tauto. }
  apply dt_lt_true in Hlt. destruct Hlt as (e & sn & He & Hsn & Hlt).
  pose proof Hsn as Hm. unfold snap in Hm.
  apply snapshot_date_some in Hm. destruct Hm as (m & Hm & ->).
  exists e, m. repeat split; try assumption.
  - apply Hm.
  - apply Hm.
  - unfold row_of_record.
    cbn [Df.delay_intensity add_columns Merged.order].
    rewrite orb_comm, Hflag, Hsn, He. reflexivity.
Qed.

(** X5.  For a row flagged as a failure delay or a canceled delay, the
    bucket is decided by the time from the estimated delivery date to
    the snapshot date: none under one day, '1-3' from one day to under
    four, '4-7' from four days to under eight, '7 or more' from eight
    days on. *)
Theorem delay_bucket_boundaries (orders : list Orders.row)
    (customers : list Customers.row) (order_items : list Items.row) (r : Df.row) :
  In r (process_data orders customers order_items) ->
  undelivered_delay r = true ->
  exists e m,
    Df.order_estimated_delivery_date r = Some e
    /\ is_latest_purchase orders m
    /\ (0 < m + day_ns - e)%Z
    /\ (Df.delay_intensity r = None <-> (m + day_ns - e < day_ns)%Z)
    /\ (Df.delay_intensity r = Some D1_3
        <-> (day_ns <= m + day_ns - e < 4 * day_ns)%Z)
    /\ (Df.delay_intensity r = Some D4_7
        <-> (4 * day_ns <= m + day_ns - e < 8 * day_ns)%Z)
    /\ (Df.delay_intensity r = Some D7_plus <-> (8 * day_ns <= m + day_ns - e)%Z).
Proof.
  rewrite process_data_spec. intros Hr Hflag.
  apply in_map_iff in Hr. destruct Hr as (rec & <- & _).
  destruct (@flagged_row_intensity orders customers order_items rec Hflag)
    as (e & m & He & Hm & Hlt & ->).
  exists e, m. split; [exact He|]. split; [exact Hm|]. split; [lia|].
  set (late := (m + day_ns - e)%Z) in *.
  assert (Hlate : (0 < late)%Z) by (unfold late; lia). clearbody late.
  pose proof (Z.div_mod late day_ns) as Hdiv.
  pose proof (Z.mod_pos_bound late day_ns) as Hmod.
  unfold day_ns in *. set (q := (late / 86400000000000)%Z) in *.
  specialize (Hdiv ltac:(lia)). specialize (Hmod ltac:(lia)).
  unfold categorize_delay.
  destruct (Z.leb_spec q 0); [|destruct (Z.leb_spec q 3); [|destruct (Z.leb_spec q 7)]];
    repeat split; intros; try discriminate; try reflexivity; try lia.
Qed.

(** On the sample, the order estimated one day before the snapshot is
    in the first bucket. *)
Lemma delay_bucket_boundaries_witness :
  exists r,
    nth_error Sample.df 3 = Some r
    /\ undelivered_delay r = true
    /\ Df.delay_intensity r = Some D1_3
    /\ exists e m,
         Df.order_estimated_delivery_date r = Some e
         /\ is_latest_purchase Sample.orders m
         /\ (0 < m + day_ns - e)%Z
         /\ (Df.delay_intensity r = None <-> (m + day_ns - e < day_ns)%Z)
         /\ (Df.delay_intensity r = Some D1_3
             <-> (day_ns <= m + day_ns - e < 4 * day_ns)%Z)
         /\ (Df.delay_intensity r = Some D4_7
             <-> (4 * day_ns <= m + day_ns - e < 8 * day_ns)%Z)
         /\ (Df.delay_intensity r = Some D7_plus
             <-> (8 * day_ns <= m + day_ns - e)%Z).
Proof.
  eexists. split; [reflexivity|]. split; [reflexivity|]. split; [reflexivity|].
  refine (@delay_bucket_boundaries Sample.orders Sample.customers
            Sample.order_items _ _ _).
  - apply nth_error_In with 3%nat. reflexivity.
  - reflexivity.
Defined.

(** ** A dataset without purchase timestamps *)

Lemma bsum_map_zero {A : Type} (p : A -> bool) (l : list A) :
  (forall a, In a l -> p a = false) -> bsum (map p l) = 0%Z.
Proof.
  induction l as [|a l IH]; intros H; [reflexivity|].
  cbn [map]. rewrite bsum_cons, (H a) by now left.
  rewrite IH; [reflexivity|]. intros; apply H; now right.
Qed.

Lemma in_group_rows (s : string) (df : list Df.row) (r : Df.row) :
  In r (group_rows s df) -> In r df.
Proof.
  unfold group_rows. rewrite filter_In. tauto.
Qed.

(** X6.  When no order has a purchase timestamp (in particular when
    the orders table is empty) there is no snapshot date: no row is a
    failure delay or a canceled delay, no row has a delay duration or a
    category, and in every region [failure_delay_cnt],
    [canceled_delay_cnt] and the three buckets are 0. *)
Theorem no_purchase_timestamp (orders : list Orders.row)
    (customers : list Customers.row) (order_items : list Items.row) :
  (forall o, In o orders -> Orders.order_purchase_timestamp o = None) ->
  let df := process_data orders customers order_items in
  (forall r, In r df ->
     Df.is_failure_delay r = false /\ Df.is_canceled_delay r = false
     /\ Df.delay_duration r = None /\ Df.delay_intensity r = None)
  /\ (forall row, In row (region_stats df) ->
        Agg.failure_delay_cnt (Region.agg row) = 0%Z
        /\ Agg.canceled_delay_cnt (Region.agg row) = 0%Z
        /\ Agg.delay_1_3 (Region.agg row) = 0%Z
        /\ Agg.delay_4_7 (Region.agg row) = 0%Z
        /\ Agg.delay_7_plus (Region.agg row) = 0%Z).
Proof.
  intros Hnone df.
  assert (Hsnap : snapshot_date (merge_tables orders customers order_items) = None).
  { destruct (snapshot_date _) as [sn|] eqn:E; [|reflexivity].
    apply snapshot_date_some in E. destruct E as (m & [(o & Ho & Hm) _] & _).
    rewrite (Hnone o Ho) in Hm. discriminate Hm. }
  assert (Hrows : forall r, In r df ->
            Df.is_failure_delay r = false /\ Df.is_canceled_delay r = false
            /\ Df.delay_duration r = None /\ Df.delay_intensity r = None).
  { subst df. rewrite process_data_spec, Hsnap. intros r Hr.
    apply in_map_iff in Hr. destruct Hr as (rec & <- & _).
    unfold row_of_record. cbn [Df.is_failure_delay Df.is_canceled_delay
      Df.delay_duration Df.delay_intensity add_columns Merged.order].
    assert (Hlt : dt_lt (Orders.order_estimated_delivery_date (fst rec)) None = false)
      by (now destruct (Orders.order_estimated_delivery_date (fst rec))).
    rewrite Hlt, !andb_false_r. repeat split. }
  split; [exact Hrows|].
  intros row Hrow. apply in_region_stats in Hrow. destruct Hrow as (s & _ & ->).
  cbn [Region.agg add_ratios agg_group Agg.failure_delay_cnt Agg.canceled_delay_cnt
       Agg.delay_1_3 Agg.delay_4_7 Agg.delay_7_plus].
  repeat split; apply bsum_map_zero; intros r Hr; apply in_group_rows in Hr;
    destruct (Hrows r Hr) as (H1 & H2 & _ & H4); try assumption;
    now rewrite H4.
Qed.

(** With its purchase timestamps blanked, the shipped order of the
    sample is no longer a failure delay. *)
Lemma no_purchase_timestamp_witness :
  exists r,
    nth_error (process_data (map Sample.undated Sample.orders) Sample.customers
                 Sample.order_items) 3 = Some r
    /\ Df.order_status r = Some "shipped"%string
    /\ Df.is_failure_delay r = false /\ Df.is_canceled_delay r = false
    /\ Df.delay_duration r = None /\ Df.delay_intensity r = None.
Proof.
  eexists. split; [reflexivity|]. split; [reflexivity|].
  refine (proj1 (no_purchase_timestamp (map Sample.undated Sample.orders)
                   Sample.customers Sample.order_items _) _ _).
  - intros o Ho. apply in_map_iff in Ho. destruct Ho as (o' & <- & _). reflexivity.
  - apply nth_error_In with 3%nat. reflexivity.
Defined.

(** ** Bounds between the columns of a region *)

Lemma bsum_le {A : Type} (p q : A -> bool) (l : list A) :
  (forall a, In a l -> p a = true -> q a = true) ->
  (bsum (map p l) <= bsum (map q l))%Z.
Proof.
  induction l as [|a l IH]; intros H; [reflexivity|].
  cbn [map]. rewrite !bsum_cons.
  assert (IH' : (bsum (map p l) <= bsum (map q l))%Z)
    by (apply IH; intros; apply H; [now right | assumption]).
  specialize (H a (or_introl eq_refl)).
  destruct (p a), (q a); simpl Z.b2z; try lia; discriminate (H eq_refl).
Qed.

Lemma bsum3_le_count {A : Type} (p1 p2 p3 : A -> bool) (l : list A) :
  (forall a, In a l -> (Z.b2z (p1 a) + Z.b2z (p2 a) + Z.b2z (p3 a) <= 1)%Z) ->
  (bsum (map p1 l) + bsum (map p2 l) + bsum (map p3 l)
   <= count_if (fun _ => true) l)%Z.
Proof.
  induction l as [|a l IH]; intros H.
  - unfold count_if, bsum. simpl. lia.
  - cbn [map]. rewrite !bsum_cons, count_if_cons.
    assert (IH' := IH (fun a0 Ha0 => H a0 (or_intror Ha0))).
    specialize (H a (or_introl eq_refl)). simpl Z.b2z at 4. lia.
Qed.

(** An order is delivered, canceled or neither: at most one of
    [is_success], [is_canceled] and [is_failure_delay] is set. *)
Lemma outcome_exclusive (snap : datetime) (m : Merged.row) :
  (Z.b2z (Df.is_success (add_columns snap m))
   + Z.b2z (Df.is_canceled (add_columns snap m))
   + Z.b2z (Df.is_failure_delay (add_columns snap m)) <= 1)%Z.
Proof.
  cbn [Df.is_success Df.is_canceled Df.is_failure_delay add_columns].
  destruct (is_lit (Orders.order_status (Merged.order m)) "delivered") eqn:Hs.
  - rewrite (status_exclusive _ Hs). simpl. lia.
  - simpl. destruct (is_lit (Orders.order_status (Merged.order m)) "canceled"); simpl;
      [lia | destruct (dt_lt _ _); simpl; lia].
Qed.

(** X7.  In every region the delayed deliveries are among the
    deliveries and the delayed cancellations among the cancellations;
    deliveries, cancellations and failure delays are disjoint, so
    together they are at most the region's order records. *)
Theorem region_count_bounds (orders : list Orders.row)
    (customers : list Customers.row) (order_items : list Items.row)
    (row : Region.row) :
  In row (region_stats (process_data orders customers order_items)) ->
  (0 <= Agg.success_delay_cnt (Region.agg row) <= Agg.success_cnt (Region.agg row))%Z
  /\ (0 <= Agg.canceled_delay_cnt (Region.agg row)
      <= Agg.canceled_cnt (Region.agg row))%Z
  /\ (0 <= Agg.failure_delay_cnt (Region.agg row))%Z
  /\ (Agg.success_cnt (Region.agg row) + Agg.canceled_cnt (Region.agg row)
      + Agg.failure_delay_cnt (Region.agg row)
      <= count_if (in_state (Agg.customer_state (Region.agg row)))
           (order_records orders customers))%Z.
Proof.
  rewrite process_data_spec. set (snap := snapshot_date _).
  intros Hrow. apply in_region_stats in Hrow. destruct Hrow as (s & _ & ->).
  cbn [Region.agg add_ratios agg_group Agg.customer_state Agg.success_delay_cnt
       Agg.success_cnt Agg.canceled_delay_cnt Agg.canceled_cnt Agg.failure_delay_cnt].
  rewrite group_rows_of_records.
  set (g := map (row_of_record snap order_items)
              (filter (in_state s) (order_records orders customers))).
  assert (Hg : forall r, In r g -> exists m, r = add_columns snap m).
  { intros r Hr. apply in_map_iff in Hr. destruct Hr as (rec & <- & _).
    eexists. reflexivity. }
  split; [|split; [|split]].
  - split; [apply bsum_nonneg|]. apply bsum_le. intros r Hr.
    destruct (Hg r Hr) as (m & ->). simpl. rewrite andb_true_iff. tauto.
  - split; [apply bsum_nonneg|]. apply bsum_le. intros r Hr.
    destruct (Hg r Hr) as (m & ->). simpl. rewrite andb_true_iff. tauto.
  - apply bsum_nonneg.
  - rewrite <- count_if_true_filter.
    rewrite <- (count_if_map (fun _ => true) (row_of_record snap order_items)).
    fold g. apply bsum3_le_count. intros r Hr.
    destruct (Hg r Hr) as (m & ->). apply outcome_exclusive.
Qed.

(** On the sample, SP has one delivery and one cancellation, both
    delayed, out of two records. *)
Lemma region_count_bounds_witness :
  exists row,
    nth_error (region_stats Sample.df) 2 = Some row
    /\ (0 <= Agg.success_delay_cnt (Region.agg row)
        <= Agg.success_cnt (Region.agg row))%Z
    /\ (0 <= Agg.canceled_delay_cnt (Region.agg row)
        <= Agg.canceled_cnt (Region.agg row))%Z
    /\ (0 <= Agg.failure_delay_cnt (Region.agg row))%Z
    /\ (Agg.success_cnt (Region.agg row) + Agg.canceled_cnt (Region.agg row)
        + Agg.failure_delay_cnt (Region.agg row)
        <= count_if (in_state (Agg.customer_state (Region.agg row)))
             (order_records Sample.orders Sample.customers))%Z.
Proof.
  eexists. split; [reflexivity|].
  refine (@region_count_bounds Sample.orders Sample.customers Sample.order_items _ _).
  apply nth_error_In with 2%nat. reflexivity.
Defined.

(** ** Average times *)

Lemma mean_skipna_nan (l : list (option Z)) :
  mean_skipna l = NaN <-> forall d, ~ In (Some d) l.
Proof.
  unfold mean_skipna. split.
  - intros H d Hd. apply in_dropna in Hd.
    destruct (dropna l) as [|x xs]; [contradiction | discriminate H].
  - intros H. destruct (dropna l) as [|x xs] eqn:E; [reflexivity|].
    exfalso. apply (H x), in_dropna. rewrite E. now left.
Qed.

Lemma mean_skipna_cases (l : list (option Z)) :
  mean_skipna l = NaN \/ exists q, mean_skipna l = Finite q.
Proof.
  unfold mean_skipna. destruct (map of_int (dropna l)); [now left|].
  right. eexists. reflexivity.
Qed.

Lemma td_days_none (a b : datetime) :
  td_days (dt_sub a b) = None <-> a = None \/ b = None.
Proof.
  destruct a, b; simpl; split; intros H; try reflexivity; try discriminate H;
    try (now left); try (now right).
  destruct H; discriminate.
Qed.

(** X9.  [avg_time_success] of a region is NaN exactly when none of
    its order records has both a delivery date and a purchase
    timestamp, and [avg_time_failure] exactly when none has both an
    estimated date and a purchase timestamp; otherwise they are finite.
    Neither looks at the order status. *)
Theorem avg_time_missing (orders : list Orders.row)
    (customers : list Customers.row) (order_items : list Items.row)
    (row : Region.row) :
  In row (region_stats (process_data orders customers order_items)) ->
  let s := Agg.customer_state (Region.agg row) in
  let records := order_records orders customers in
  (Agg.avg_time_success (Region.agg row) = NaN
   <-> forall rec, In rec records -> in_state s rec = true ->
         Orders.order_delivered_customer_date (fst rec) = None
         \/ Orders.order_purchase_timestamp (fst rec) = None)
  /\ (Agg.avg_time_failure (Region.agg row) = NaN
      <-> forall rec, In rec records -> in_state s rec = true ->
            Orders.order_estimated_delivery_date (fst rec) = None
            \/ Orders.order_purchase_timestamp (fst rec) = None)
  /\ (Agg.avg_time_success (Region.agg row) = NaN
      \/ exists q, Agg.avg_time_success (Region.agg row) = Finite q)
  /\ (Agg.avg_time_failure (Region.agg row) = NaN
      \/ exists q, Agg.avg_time_failure (Region.agg row) = Finite q).
Proof.
  rewrite process_data_spec. set (snap := snapshot_date _).
  intros Hrow. apply in_region_stats in Hrow. destruct Hrow as (s & _ & ->).
  cbn [Region.agg add_ratios agg_group Agg.customer_state Agg.avg_time_success
       Agg.avg_time_failure].
  rewrite group_rows_of_records, !map_map. cbn zeta.
  split; [|split; [|split; apply mean_skipna_cases]].
  - rewrite mean_skipna_nan. split.
    + intros H rec Hrec Hst. apply td_days_none.
      destruct (td_days _) as [d|] eqn:E; [|reflexivity].
      exfalso. apply (H d), in_map_iff. exists rec. split; [exact E|].
      apply filter_In. now split.
    + intros H d Hd. apply in_map_iff in Hd. destruct Hd as (rec & Hd & Hin).
      apply filter_In in Hin. destruct Hin as [Hrec Hst].
      specialize (H rec Hrec Hst). apply td_days_none in H.
      simpl in Hd. rewrite H in Hd. discriminate Hd.
  - rewrite mean_skipna_nan. split.
    + intros H rec Hrec Hst. apply td_days_none.
      destruct (td_days _) as [d|] eqn:E; [|reflexivity].
      exfalso. apply (H d), in_map_iff. exists rec. split; [exact E|].
      apply filter_In. now split.
    + intros H d Hd. apply in_map_iff in Hd. destruct Hd as (rec & Hd & Hin).
      apply filter_In in Hin. destruct Hin as [Hrec Hst].
      specialize (H rec Hrec Hst). apply td_days_none in H.
      simpl in Hd. rewrite H in Hd. discriminate Hd.
Qed.

(** On the sample, no order of AL was delivered: its average delivery
    time is NaN. *)
Lemma avg_time_missing_witness :
  exists row,
    nth_error (region_stats Sample.df) 0 = Some row
    /\ Agg.customer_state (Region.agg row) = "AL"%string
    /\ Agg.avg_time_success (Region.agg row) = NaN
    /\ forall rec,
         In rec (order_records Sample.orders Sample.customers) ->
         in_state (Agg.customer_state (Region.agg row)) rec = true ->
         Orders.order_delivered_customer_date (fst rec) = None
         \/ Orders.order_purchase_timestamp (fst rec) = None.
Proof.
  eexists. split; [reflexivity|]. split; [reflexivity|]. split; [reflexivity|].
  refine (proj1 (proj1 (@avg_time_missing Sample.orders Sample.customers
                          Sample.order_items _ _)) _).
  - apply nth_error_In with 0%nat. reflexivity.
  - reflexivity.
Defined.

(** ** The KPI cards of [main] *)

Lemma zsum_cons (x : Z) (l : list Z) : zsum (x :: l) = (x + zsum l)%Z.
Proof. reflexivity. Qed.

Lemma filtered_data_incl (data : list Stats.row) (selected_states : list string)
    (r : Stats.row) :
  In r (filtered_data data selected_states) -> In r data.
Proof.
  destruct selected_states as [|s ss]; simpl; [tauto|].
  rewrite filter_In. tauto.
Qed.

(** The shown table names its regions through [state_of]. *)
Lemma in_shown_states (shown : list Stats.row) (r : Df.row) :
  existsb (fun s => key_eqb (Df.customer_state r) (Some s)) (map state_of shown)
  = in_shown shown r.
Proof.
  unfold in_shown. induction shown as [|row shown IH]; [reflexivity|].
  cbn [map existsb]. now rewrite IH.
Qed.

(** The filter of lines 123-126 keeps the states distinct. *)
Lemma shown_states_nodup (data : list Stats.row) (selected_states : list string) :
  NoDup (map state_of data) ->
  NoDup (map state_of (filtered_data data selected_states)).
Proof.
  destruct selected_states as [|s0 ss]; [trivial|]. unfold filtered_data.
  generalize (fun r => existsb (String.eqb (state_of r)) (s0 :: ss)).
  intros keep. induction data as [|r data IH]; intros Hnd; [constructor|].
  apply NoDup_cons_iff in Hnd. destruct Hnd as [Hr Hnd]. cbn [filter].
  destruct (keep r); [|exact (IH Hnd)].
  cbn [map]. apply NoDup_cons; [|exact (IH Hnd)].
  contradict Hr. apply in_map_iff in Hr. destruct Hr as (x & Hx & Hin).
  apply filter_In in Hin. rewrite <- Hx. apply in_map. tauto.
Qed.

Lemma count_if_le {A : Type} (p q : A -> bool) (l : list A) :
  (forall a, In a l -> p a = true -> q a = true) ->
  (count_if p l <= count_if q l)%Z.
Proof.
  rewrite <- !bsum_map_count. apply bsum_le.
Qed.

Lemma count_if_or {A : Type} (p q : A -> bool) (l : list A) :
  (forall a, In a l -> p a = true -> q a = false) ->
  (count_if p l + count_if q l)%Z = count_if (fun a => p a || q a) l.
Proof.
  induction l as [|a l IH]; intros H; [reflexivity|].
  rewrite !count_if_cons, <- IH by (intros; apply H; [now right | assumption]).
  specialize (H a (or_introl eq_refl)).
  destruct (p a), (q a); simpl Z.b2z; try lia; discriminate (H eq_refl).
Qed.

(** A boolean column summed over some of the regions counts the rows
    of the frame that have the flag and the state of one of them. *)
Lemma some_regions_conservation (p : Df.row -> bool) (df : list Df.row)
    (keys : list string) :
  NoDup keys ->
  zsum (map (fun s => bsum (map p (group_rows s df))) keys)
  = count_if
      (fun r => existsb (fun s => key_eqb (Df.customer_state r) (Some s)) keys && p r)
      df.
Proof.
  intros Hnd.
  pose (among := fun r : Df.row =>
                   existsb (fun s => key_eqb (Df.customer_state r) (Some s)) keys).
  transitivity
    (count_if (fun a => match Df.customer_state a with
                        | Some _ => p a
                        | None => false
                        end) (filter among df)).
  - rewrite <- (@group_conservation _ Df.customer_state p (filter among df) keys Hnd).
    + apply f_equal, map_ext_in. intros s Hs.
      unfold group_rows. rewrite bsum_map_count, !count_if_filter.
      apply count_if_ext_in. intros r _.
      destruct (key_eqb (Df.customer_state r) (Some s)) eqn:E; simpl.
      * assert (Ha : among r = true).
        { apply existsb_exists. exists s. now split. }
        now rewrite Ha.
      * now rewrite andb_false_r.
    + intros r s Hr Hst. apply filter_In in Hr. destruct Hr as [_ Ha].
      apply existsb_exists in Ha. destruct Ha as (s' & Hs' & Heq).
      apply key_eqb_eq in Heq. rewrite Hst in Heq. injection Heq as ->. exact Hs'.
  - rewrite count_if_filter. apply count_if_ext_in. intros r _.
    change (existsb (fun s => key_eqb (Df.customer_state r) (Some s)) keys)
      with (among r).
    destruct (among r) eqn:Ha; [|reflexivity]. simpl.
    apply existsb_exists in Ha. destruct Ha as (s' & _ & Heq).
    apply key_eqb_eq in Heq. now rewrite Heq.
Qed.

(** The sum of a column of the shown regions, in terms of the frame. *)
Lemma shown_sum (df : list Df.row) (shown : list Stats.row) (p : Df.row -> bool)
    (col : Agg.row -> Z) :
  NoDup (map state_of shown) ->
  (forall r, In r shown ->
     col (Region.agg (Stats.region r)) = bsum (map p (group_rows (state_of r) df))) ->
  zsum (map (fun r => col (Region.agg (Stats.region r))) shown)
  = count_if (fun r => in_shown shown r && p r) df.
Proof.
  intros Hnd Hcol.
  rewrite (map_ext_in _ _ _ Hcol).
  rewrite <- (map_map state_of (fun s => bsum (map p (group_rows s df)))).
  rewrite (some_regions_conservation p df Hnd).
  apply count_if_ext_in. intros r _. now rewrite in_shown_states.
Qed.

(** X10.  The overall delay rate of the KPI card is, in float64, 100
    times the quotient of two counts over the frame: the rows of the
    shown regions that are a success delay or a failure delay (a
    canceled delay is not counted, though the per-region ratio counts
    it), by the rows of the shown regions that have an [order_id].
    When no row of the shown regions lacks its [order_id], the first
    count is at most the second. *)
Theorem avg_total_delay_counts (orders : list Orders.row)
    (customers : list Customers.row) (order_items : list Items.row)
    (data : list Stats.row) (selected_states : list string) :
  let df := process_data orders customers order_items in
  map Stats.region data = region_stats df ->
  let shown := filtered_data data selected_states in
  let delayed :=
    count_if (fun r => in_shown shown r
                       && (Df.is_success_delay r || Df.is_failure_delay r)) df in
  let counted :=
    count_if (fun r => in_shown shown r
                       && match Df.order_id r with Some _ => true | None => false end)
      df in
  (kpi_success_delay shown + kpi_failure_delay shown)%Z = delayed
  /\ kpi_total_orders shown = counted
  /\ avg_total_delay shown
     = SFmul 53 1024
         (SFdiv 53 1024 (binary_normalize 53 1024 delayed 0 false)
            (binary_normalize 53 1024 counted 0 false))
         (binary_normalize 53 1024 100 0 false)
  /\ ((forall r, In r df -> in_shown shown r = true -> Df.order_id r <> None) ->
      (0 <= delayed <= counted)%Z).
Proof.
  intros df Hdata shown delayed counted.
  assert (Hnd : NoDup (map state_of shown)).
  { apply shown_states_nodup. unfold state_of.
    rewrite <- (map_map Stats.region
                  (fun row => Agg.customer_state (Region.agg row))), Hdata.
    apply region_states_nodup. }
  assert (Hrow : forall r, In r shown ->
            Stats.region r
            = add_ratios (agg_group (state_of r) (group_rows (state_of r) df))).
  { intros r Hr. apply filtered_data_incl in Hr.
    assert (Hin : In (Stats.region r) (region_stats df))
      by (rewrite <- Hdata; now apply in_map).
    apply in_region_stats in Hin. destruct Hin as (s & _ & Heq).
    unfold state_of. rewrite Heq. reflexivity. }
  assert (Hsd : kpi_success_delay shown
                = count_if (fun r => in_shown shown r && Df.is_success_delay r) df).
  { apply shown_sum; [exact Hnd|]. intros r Hr. now rewrite (Hrow r Hr). }
  assert (Hfd : kpi_failure_delay shown
                = count_if (fun r => in_shown shown r && Df.is_failure_delay r) df).
  { apply shown_sum; [exact Hnd|]. intros r Hr. now rewrite (Hrow r Hr). }
  assert (Htot : kpi_total_orders shown = counted).
  { unfold kpi_total_orders, counted.
    apply (shown_sum df shown
             (fun r => match Df.order_id r with Some _ => true | None => false end)
             Agg.total_orders Hnd).
    intros r Hr. rewrite (Hrow r Hr). simpl. unfold count_notna.
    now rewrite map_map. }
  assert (Hnum : (kpi_success_delay shown + kpi_failure_delay shown)%Z = delayed).
  { rewrite Hsd, Hfd, count_if_or.
    - apply count_if_ext_in. intros r _.
      now destruct (in_shown shown r), (Df.is_success_delay r), (Df.is_failure_delay r).
    - intros r Hr Hs. apply andb_true_iff in Hs. destruct Hs as [_ Hs].
      unfold df in Hr. rewrite process_data_spec in Hr.
      apply in_map_iff in Hr. destruct Hr as (rec & <- & _).
      pose proof (flags_exclusive
                    (snapshot_date (merge_tables orders customers order_items))
                    {| Merged.order := fst rec;
                       Merged.customer_state := snd rec;
                       Merged.price :=
                         order_total order_items (Orders.order_id (fst rec)) |}) as Hex.
      unfold flags_set in Hex. unfold row_of_record in Hs |- *. rewrite Hs in Hex.
      destruct (Df.is_failure_delay _); [|now rewrite andb_false_r].
      destruct (Df.is_canceled_delay _); simpl in Hex; lia. }
  split; [exact Hnum|]. split; [exact Htot|]. split.
  - unfold avg_total_delay, f64_of_int. now rewrite Hnum, Htot.
  - intros Hid. split; [apply count_if_nonneg|].
    apply count_if_le. intros r Hr Hs. apply andb_true_iff in Hs.
    destruct Hs as [Hs _]. rewrite Hs. simpl.
    specialize (Hid r Hr Hs). now destruct (Df.order_id r).
Qed.

(** On the sample without the order that has no identifier, with SP
    selected: SP has three orders, a late delivery, a canceled delay
    and a delivery on time; the rate is 100 times 1/3, where the ratio
    of SP counts two of the three. *)
Lemma avg_total_delay_counts_witness :
  map Stats.region Sample.table_clean = region_stats Sample.df_clean
  /\ avg_total_delay (filtered_data Sample.table_clean ["SP"%string])
     = SFmul 53 1024
         (SFdiv 53 1024 (binary_normalize 53 1024 1 0 false)
            (binary_normalize 53 1024 3 0 false))
         (binary_normalize 53 1024 100 0 false)
  /\ (0 <= 1 <= 3)%Z.
Proof.
  assert (Hdata : map Stats.region Sample.table_clean = region_stats Sample.df_clean)
    by reflexivity.
  split; [exact Hdata|].
  destruct (@avg_total_delay_counts
              [Sample.o1; Sample.o3; Sample.o4; Sample.o5; Sample.o6]
              Sample.customers Sample.order_items Sample.table_clean
              ["SP"%string] Hdata) as (_ & _ & Hrate & Hbound).
  split.
  - rewrite Hrate. vm_compute. reflexivity.
  - assert (Hid : forall r,
              In r (process_data
                      [Sample.o1; Sample.o3; Sample.o4; Sample.o5; Sample.o6]
                      Sample.customers Sample.order_items) ->
              in_shown (filtered_data Sample.table_clean ["SP"%string]) r = true ->
              Df.order_id r <> None).
    { intros r Hr _.
      repeat (destruct Hr as [<-|Hr]; [discriminate|]). contradiction. }
    specialize (Hbound Hid). vm_compute in Hbound. vm_compute. exact Hbound.
Defined.

(** ** The sidebar options *)

Lemma in_unique (x : string) (l : list string) : In x (unique l) <-> In x l.
Proof.
  induction l as [|a l IH]; simpl; [tauto|].
  rewrite filter_In, IH, negb_true_iff.
  destruct (String.eqb_spec a x) as [->|Hne]; intuition congruence.
Qed.

Lemma nodup_unique (l : list string) : NoDup (unique l).
Proof.
  induction l as [|a l IH]; simpl; constructor.
  - rewrite filter_In, String.eqb_refl. simpl. intros [_ H]. discriminate H.
  - now apply NoDup_filter.
Qed.

Lemma filter_keeps_all {A : Type} (p : A -> bool) (l : list A) :
  (forall a, In a l -> p a = true) -> filter p l = l.
Proof.
  induction l as [|a l IH]; simpl; intros H; [reflexivity|].
  rewrite (H a) by now left. f_equal. apply IH. intros; apply H; now right.
Qed.

Lemma filter_idem {A : Type} (p : A -> bool) (l : list A) :
  filter p (filter p l) = filter p l.
Proof.
  apply filter_keeps_all. intros a Ha. apply filter_In in Ha. tauto.
Qed.

(** X11.  The options of the multiselect are the states of the table,
    each once.  Selecting all of them shows the same table as selecting
    none; filtering twice by a selection is filtering once; and a
    non-empty selection among the options, which is what the
    multiselect returns, shows a table that is not empty and whose
    states are the selected ones. *)
Theorem filtered_data_options (data : list Stats.row) :
  NoDup (state_options data)
  /\ (forall s, In s (state_options data) <-> exists r, In r data /\ state_of r = s)
  /\ filtered_data data (state_options data) = data
  /\ (forall selected_states,
        filtered_data (filtered_data data selected_states) selected_states
        = filtered_data data selected_states)
  /\ (forall selected_states,
        selected_states <> [] ->
        incl selected_states (state_options data) ->
        filtered_data data selected_states <> []
        /\ (forall s, In s selected_states <->
                      exists r, In r (filtered_data data selected_states)
                                /\ state_of r = s)).
Proof.
  assert (Hopt : forall s, In s (state_options data) <->
                           exists r, In r data /\ state_of r = s).
  { intros s. unfold state_options. rewrite in_unique, in_map_iff.
    split; intros (r & H1 & H2); now exists r. }
  split; [apply nodup_unique|]. split; [exact Hopt|]. split; [|split].
  - unfold state_options.
    destruct (unique (map state_of data)) as [|s ss] eqn:E; [reflexivity|].
    unfold filtered_data. apply filter_keeps_all. intros r Hr.
    apply existsb_exists. exists (state_of r). split; [|apply String.eqb_refl].
    rewrite <- E. apply in_unique. now apply in_map.
  - intros [|s ss]; [reflexivity|]. apply filter_idem.
  - intros [|s0 ss] Hne Hincl; [congruence|].
    assert (Hshown : forall s, In s (s0 :: ss) ->
              exists r, In r (filtered_data data (s0 :: ss)) /\ state_of r = s).
    { intros s Hs. destruct (proj1 (Hopt s) (Hincl s Hs)) as (r & Hr & Hst).
      exists r. split; [|exact Hst]. unfold filtered_data. apply filter_In.
      split; [exact Hr|]. apply existsb_exists. exists s.
      split; [exact Hs|]. rewrite Hst. apply String.eqb_refl. }
    split.
    + destruct (Hshown s0 (or_introl eq_refl)) as (r & Hr & _).
      intros Hempty. rewrite Hempty in Hr. contradiction.
    + intros s. split; [apply Hshown|].
      intros (r & Hr & Hst). unfold filtered_data in Hr. apply filter_In in Hr.
      destruct Hr as [_ Hr]. apply existsb_exists in Hr.
      destruct Hr as (x & Hx & Heq). apply String.eqb_eq in Heq. congruence.
Qed.

(** SP and AL are two of the three options of the sample table; the
    table shown has a row of SP. *)
Lemma filtered_data_options_witness :
  incl ["SP"; "AL"]%string (state_options Sample.table)
  /\ filtered_data Sample.table ["SP"; "AL"]%string <> []
  /\ exists r, In r (filtered_data Sample.table ["SP"; "AL"]%string)
               /\ state_of r = "SP"%string.
Proof.
  assert (Hincl : incl ["SP"; "AL"]%string (state_options Sample.table)).
  { intros s [<-|[<-|[]]]; vm_compute; tauto. }
  assert (Hne : ["SP"; "AL"]%string <> []) by discriminate.
  destruct (proj2 (proj2 (proj2 (proj2 (filtered_data_options Sample.table))))
              ["SP"; "AL"]%string Hne Hincl) as [Hshown Hstates].
  split; [exact Hincl|]. split; [exact Hshown|].
  apply (proj1 (Hstates "SP"%string)). left. reflexivity.
Defined.

(** ** The stacked delay chart *)

Lemma zsum_app (l1 l2 : list Z) : zsum (l1 ++ l2) = (zsum l1 + zsum l2)%Z.
Proof.
  induction l1 as [|x l1 IH]; [reflexivity|].
  cbn [app]. rewrite !zsum_cons, IH. lia.
Qed.

Lemma label_indicator (r : Df.row) :
  (Z.b2z (is_label (Df.delay_intensity r) D1_3)
   + Z.b2z (is_label (Df.delay_intensity r) D4_7)
   + Z.b2z (is_label (Df.delay_intensity r) D7_plus)
   = Z.b2z (has_category r))%Z.
Proof.
  unfold has_category. destruct (Df.delay_intensity r) as [[| |]|]; reflexivity.
Qed.

Lemma bucket_sum_of_group (g : list Df.row) :
  (bsum (map (fun r => is_label (Df.delay_intensity r) D1_3) g)
   + bsum (map (fun r => is_label (Df.delay_intensity r) D4_7) g)
   + bsum (map (fun r => is_label (Df.delay_intensity r) D7_plus) g)
   = bsum (map has_category g))%Z.
Proof.
  induction g as [|r g IH]; [reflexivity|].
  cbn [map]. rewrite !bsum_cons. pose proof (label_indicator r). lia.
Qed.

Lemma bars_of_region (df : list Df.row) (row : Region.row) :
  In row (region_stats df) ->
  (Agg.delay_1_3 (Region.agg row) + Agg.delay_4_7 (Region.agg row)
   + Agg.delay_7_plus (Region.agg row)
   = count_if has_category (group_rows (Agg.customer_state (Region.agg row)) df))%Z.
Proof.
  intros Hrow. apply in_region_stats in Hrow. destruct Hrow as (s & _ & ->).
  cbn [Region.agg add_ratios agg_group Agg.customer_state Agg.delay_1_3
       Agg.delay_4_7 Agg.delay_7_plus].
  now rewrite bucket_sum_of_group, bsum_map_count.
Qed.

Lemma melt_total (shown : list Stats.row) :
  zsum (map Melted.count (delay_intensity_df shown))
  = zsum (map (fun r => (bucket_count D1_3 r + bucket_count D4_7 r
                         + bucket_count D7_plus r)%Z) shown).
Proof.
  unfold delay_intensity_df. cbn [flat_map].
  rewrite app_nil_r, !map_app, !zsum_app, !map_map. cbn [Melted.count].
  rewrite (zsum_map_add (fun r => (bucket_count D1_3 r + bucket_count D4_7 r)%Z)
             (bucket_count D7_plus)),
          (zsum_map_add (bucket_count D1_3) (bucket_count D4_7)).
  rewrite Z.add_assoc. reflexivity.
Qed.

(** X12.  The frame behind the stacked delay chart has three rows per
    shown region, one per bucket.  The bars of a region stack to the
    number of rows of the frame that have that state and a delay
    category, and so does the chart as a whole; with the whole table
    shown, the chart counts every row of the frame that has a state and
    a category. *)
Theorem delay_intensity_df_totals (df : list Df.row) (data : list Stats.row)
    (selected_states : list string) :
  map Stats.region data = region_stats df ->
  let shown := filtered_data data selected_states in
  List.length (delay_intensity_df shown) = (3 * List.length shown)%nat
  /\ (forall r, In r shown ->
        (bucket_count D1_3 r + bucket_count D4_7 r + bucket_count D7_plus r
         = count_if has_category (group_rows (state_of r) df))%Z)
  /\ zsum (map Melted.count (delay_intensity_df shown))
     = zsum (map (fun r => count_if has_category (group_rows (state_of r) df)) shown)
  /\ zsum (map Melted.count (delay_intensity_df data))
     = count_if (fun r => match Df.customer_state r with
                          | Some _ => has_category r
                          | None => false
                          end) df.
Proof.
  intros Hdata shown.
  assert (Hbar : forall r, In r data ->
            (bucket_count D1_3 r + bucket_count D4_7 r + bucket_count D7_plus r
             = count_if has_category (group_rows (state_of r) df))%Z).
  { intros r Hr. unfold bucket_count, state_of. apply bars_of_region.
    rewrite <- Hdata. now apply in_map. }
  split; [|split; [|split]].
  - unfold delay_intensity_df. cbn [flat_map].
    rewrite !length_app, !length_map. simpl. lia.
  - intros r Hr. apply Hbar. eapply filtered_data_incl. exact Hr.
  - rewrite melt_total. f_equal. apply map_ext_in. intros r Hr.
    apply Hbar. eapply filtered_data_incl. exact Hr.
  - rewrite melt_total, <- region_sum_conservation.
    rewrite (map_ext_in _ _ _ Hbar).
    rewrite <- (map_map Stats.region
                  (fun row => count_if has_category
                                (group_rows (Agg.customer_state (Region.agg row)) df))).
    rewrite Hdata. unfold region_stats, aggregate. rewrite !map_map.
    f_equal. apply map_ext. intros s. simpl. now rewrite bsum_map_count.
Qed.

(** On the sample, one order of AL has a category and one of SP. *)
Lemma delay_intensity_df_totals_witness :
  List.length (delay_intensity_df (filtered_data Sample.table ["AL"%string])) = 3%nat
  /\ zsum (map Melted.count (delay_intensity_df Sample.table)) = 2%Z.
Proof.
  assert (H : map Stats.region Sample.table = region_stats Sample.df) by reflexivity.
  split.
  - exact (proj1 (@delay_intensity_df_totals Sample.df Sample.table
                    ["AL"%string] H)).
  - rewrite (proj2 (proj2 (proj2 (@delay_intensity_df_totals Sample.df Sample.table
                                    [] H)))).
    reflexivity.
Defined.

(** ** One format for the three tables *)

(** X13.  The three tables that the pipeline works on come from one
    format: either all three are the parquet tables, or a parquet read
    raised and all three are the CSV tables.  A parquet table read
    before the failure is not kept. *)
Theorem tables_from_one_format (fs : files) (orders : list Orders.row)
    (customers : list Customers.row) (order_items : list Items.row) :
  load_tables fs = Ok (orders, customers, order_items) ->
  (orders_parquet fs = Ok orders /\ customers_parquet fs = Ok customers
   /\ order_items_parquet fs = Ok order_items)
  \/ ((exists e, read_parquet fs = Raise e)
      /\ orders_csv fs = Ok orders /\ customers_csv fs = Ok customers
      /\ order_items_csv fs = Ok order_items).
Proof.
  unfold load_tables, try_except.
  destruct (read_parquet fs) as [t|e] eqn:Ep.
  - intros H. injection H as ->. left.
    unfold read_parquet, bind in Ep.
    destruct (orders_parquet fs); [|discriminate Ep].
    destruct (customers_parquet fs); [|discriminate Ep].
    destruct (order_items_parquet fs); [|discriminate Ep].
    now injection Ep as -> -> ->.
  - intros H. right. split; [now exists e|].
    unfold read_csv, bind in H.
    destruct (orders_csv fs); [|discriminate H].
    destruct (customers_csv fs); [|discriminate H].
    destruct (order_items_csv fs); [|discriminate H].
    now injection H as -> -> ->.
Qed.

(** With the customers parquet file unreadable, the orders are those of
    the CSV file although the orders parquet file could be read. *)
Lemma tables_from_one_format_witness :
  (orders_parquet Sample.fs_csv_only = Ok Sample.orders
   /\ customers_parquet Sample.fs_csv_only = Ok Sample.customers
   /\ order_items_parquet Sample.fs_csv_only = Ok Sample.order_items)
  \/ ((exists e, read_parquet Sample.fs_csv_only = Raise e)
      /\ orders_csv Sample.fs_csv_only = Ok Sample.orders
      /\ customers_csv Sample.fs_csv_only = Ok Sample.customers
      /\ order_items_csv Sample.fs_csv_only = Ok Sample.order_items).
Proof.
  apply (@tables_from_one_format Sample.fs_csv_only). reflexivity.
Defined.
